(** * Hyundai/Kia car interface: parameter construction and per-cycle events

    A shallow embedding of [selfdrive/car/hyundai/interface.py]
    ([CarInterface.get_params] and [CarInterface.update]) and the
    properties of its decision logic: bus topology, feature flags,
    control-law selection, vehicle registry and the button/event cycle.

    Conventions.
    - Python [float] is IEEE binary64: [PrimFloat.float].  The capnp
      message classes are not part of the file; the narrowing a capnp
      Float32 field applies on store is not represented.
    - Python [int] is [Z]; a [dict] is a [gmap]; the event container and
      the button-event list are lists in insertion order.
    - Exceptions are an explicit error monad [result]. *)

From Stdlib Require Import ZArith List Bool.
From Stdlib Require Import Ascii String Uint63 PrimFloat.
From stdpp Require Import gmap strings list.

Set Warnings "-inexact-float".
Local Open Scope string_scope.
Local Open Scope list_scope.
Local Open Scope Z_scope.

(** ** Exceptions *)

(** The exceptions the modelled lines can raise: [Decimal(None)] and
    [int(None)] raise TypeError, [Decimal] of a malformed string raises
    InvalidOperation, a decimal product out of range raises Overflow,
    [int] of a malformed string raises ValueError, [fingerprint[b]]
    raises KeyError when bus [b] is not a key, and a float division by
    zero inside a scaling helper raises ZeroDivisionError. *)
Inductive exn : Type :=
  | TypeError (key : string)
  | InvalidOperation (key : string)
  | Overflow (key : string)
  | ValueError (key : string)
  | KeyError (bus : Z)
  | ZeroDivisionError.

Inductive result (A : Type) : Type :=
  | Ok (a : A)
  | Raise (e : exn).
Arguments Ok {A} a.
Arguments Raise {A} e.

#[global] Instance result_ret : MRet result := fun A a => Ok a.
#[global] Instance result_bind : MBind result := fun A B f m =>
  match m with
  | Ok a => f a
  | Raise e => Raise e
  end.

Definition is_ok {A} (r : result A) : bool :=
  match r with Ok _ => true | Raise _ => false end.

(** ** values.py: the identifiers the interface names *)

Inductive CAR : Type :=
  | GENESIS | GENESIS_G70 | GENESIS_G80 | GENESIS_G90
  | SANTA_FE | SONATA | SONATA_HEV
  | SONATA_LF | SONATA_LF_TURBO | SONATA_LF_HEV
  | PALISADE | AVANTE | I30
  | KONA | KONA_HEV | KONA_EV | IONIQ_HEV | IONIQ_EV
  | GRANDEUR_IG | GRANDEUR_IG_HEV | GRANDEUR_IG_FL | GRANDEUR_IG_FL_HEV
  | VELOSTER | NEXO
  | SORENTO | K5 | K5_HEV | STINGER | K3 | CEED | SPORTAGE
  | NIRO_HEV | NIRO_EV | K7 | K7_HEV | SELTOS | SOUL_EV.


(** ** cereal: the message types, restricted to the fields the file touches *)

Inductive SafetyModel : Type :=
  | hyundai
  | hyundaiCommunityVisionOnly.

Inductive SteerControlType : Type :=
  | torque.

Record LateralPIDTuning : Type := {
  pid_kpBP : list float; pid_kpV : list float;
  pid_kiBP : list float; pid_kiV : list float;
  pid_kdBP : list float; pid_kdV : list float;
  pid_kf : float;
  pid_newKfTuned : bool }.

Record LateralINDITuning : Type := {
  innerLoopGainBP : list float; innerLoopGainV : list float;
  outerLoopGainBP : list float; outerLoopGainV : list float;
  timeConstantBP : list float; timeConstantV : list float;
  actuatorEffectivenessBP : list float; actuatorEffectivenessV : list float }.

Record LateralLQRTuning : Type := {
  lqr_scale : float; lqr_ki : float; lqr_dcGain : float;
  lqr_a : list float; lqr_b : list float; lqr_c : list float;
  lqr_k : list float; lqr_l : list float }.

(** The [lateralTuning] union of CarParams. *)
Inductive LateralTuning : Type :=
  | pid (t : LateralPIDTuning)
  | indi (t : LateralINDITuning)
  | lqr (t : LateralLQRTuning).

Record LongitudinalTuning : Type := {
  kpBP : list float; kpV : list float;
  kiBP : list float; kiV : list float;
  deadzoneBP : list float; deadzoneV : list float;
  kdBP : list float; kdV : list float;
  kfBP : list float; kfV : list float }.

Record CarParams : Type := {
  carName : string;
  safetyModel : SafetyModel;
  communityFeature : bool;
  steerActuatorDelay : float;
  steerRateCost : float;
  steerLimitTimer : float;
  steerRatio : float;
  lateralTuning : LateralTuning;
  steerMaxV : list float;
  steerMaxBP : list float;
  mass : float;
  wheelbase : float;
  radarTimeStep : float;
  centerToFront : float;
  rotationalInertia : float;
  tireStiffnessFront : float;
  tireStiffnessRear : float;
  steerRatioRear : float;
  steerControlType : SteerControlType;
  gasMaxBP : list float; gasMaxV : list float;
  brakeMaxBP : list float; brakeMaxV : list float;
  longitudinalTuning : LongitudinalTuning;
  enableCamera : bool;
  enableBsm : bool;
  stoppingControl : bool;
  startAccel : float;
  vCruisekph : float;
  mdpsBus : Z;
  sasBus : Z;
  sccBus : Z;
  fcaBus : Z;
  bsmAvailable : bool;
  lfaAvailable : bool;
  lvrAvailable : bool;
  evgearAvailable : bool;
  emsAvailable : bool;
  minSteerSpeed : float;
  openpilotLongitudinalControl : bool;
  enableCruise : bool;
  radarOffCan : bool;
  standStill : bool }.

(** ** The parameter store and the fingerprint *)

(** [Params()]: [get] returns [None] for an absent key. *)
Record Params : Type := {
  get : string -> option string;
  get_bool : string -> bool }.

(** A fingerprint is a dict from bus number to a dict keyed by the
    message identifiers observed on that bus. *)
Abbreviation Fingerprint := (gmap Z (gmap Z Z)).

(** [fingerprint[bus]] *)
Definition fp_bus (fingerprint : Fingerprint) (bus : Z) : result (gmap Z Z) :=
  match fingerprint !! bus with
  | Some ids => Ok ids
  | None => Raise (KeyError bus)
  end.

(** [x in d] for a dict [d]: a test on the keys. *)
Definition py_in (x : Z) (d : gmap Z Z) : bool :=
  match d !! x with
  | Some _ => true
  | None => false
  end.

(** [x in fingerprint[bus]] *)
Definition in_bus (x : Z) (fingerprint : Fingerprint) (bus : Z) : result bool :=
  ids ← fp_bus fingerprint bus; Ok (py_in x ids).

(** Truth value of an [int]. *)
Definition truthy (n : Z) : bool := negb (n =? 0).

(** [a and b] where [a] is an [int] and [b] a [bool], used as a
    condition: [b] decides when [a] is non-zero. *)
Definition int_and (a : Z) (b : bool) : bool := if truthy a then b else false.

(** What [float(Decimal(s) * Decimal(k))] does on two strings: the
    float, or the signal the decimal context traps (InvalidOperation on
    a string that is no number, Overflow on a product whose exponent is
    out of range). *)
Inductive conversion : Type :=
  | converted (x : float)
  | invalid_operation
  | overflow.

(** ** CarInterface.get_params *)

Section GetParams.

(** What [get_params] imports from modules outside the file:
    the string each [CAR] name stands for (values.py), two constants,
    the two scaling helpers of [selfdrive.car] (functions of their
    arguments that return a value or raise), the base-class
    [get_std_params], and the two library conversions
    [float(Decimal(s) * Decimal(k))] and [int(s)], the latter answering
    [None] where the Python raises on a malformed string. *)
Variable car_name : CAR -> string.
Variables STD_CARGO_KG LB_TO_KG : float.
Variable scale_rot_inertia : float -> float -> result float.
Variable scale_tire_stiffness :
  float -> float -> float -> float -> result (float * float).
Variable get_std_params : string -> Fingerprint -> CarParams.
Variable decimal_product : string -> string -> conversion.
Variable py_int : string -> option Z.

(** [float(Decimal(params.get(key, encoding="utf8")) * Decimal(scale))] *)
Definition read_scaled (params : Params) (key scale : string) : result float :=
  match get params key with
  | None => Raise (TypeError key)
  | Some s =>
      match decimal_product s scale with
      | converted x => Ok x
      | invalid_operation => Raise (InvalidOperation key)
      | overflow => Raise (Overflow key)
      end
  end.

(** [int(params.get(key, encoding="utf8"))] *)
Definition read_int (params : Params) (key : string) : result Z :=
  match get params key with
  | None => Raise (TypeError key)
  | Some s =>
      match py_int s with
      | Some n => Ok n
      | None => Raise (ValueError key)
      end
  end.

(** [candidate == CAR.c] *)
Definition is_car (candidate : string) (c : CAR) : bool :=
  bool_decide (candidate = car_name c).

(** [candidate in [CAR.c1, CAR.c2]] *)
Definition in_cars (candidate : string) (cs : list CAR) : bool :=
  existsb (is_car candidate) cs.


(** Lines 55-103: the branch on [lat_control_method].  A branch fills
    every field of its union member; with no branch taken the union is
    left as [get_std_params] built it. *)
Definition select_lateral (lat_control_method : Z) (shane_feed_forward : bool)
    (PidKp PidKi PidKd PidKf : float)
    (InnerLoopGain OuterLoopGain TimeConstant ActuatorEffectiveness : float)
    (Scale LqrKi DcGain : float) (std : LateralTuning) : LateralTuning :=
  if lat_control_method =? 0 then
    pid {| pid_kf := PidKf;
           pid_kpBP := [0; 9]%float;
           pid_kpV := [0.1%float; PidKp];
           pid_kiBP := [0; 9]%float;
           pid_kiV := [0.01%float; PidKi];
           pid_kdBP := [0]%float;
           pid_kdV := [PidKd];
           pid_newKfTuned := if shane_feed_forward then true else false |}
  else if lat_control_method =? 1 then
    indi {| innerLoopGainBP := [0; 9]%float;
            innerLoopGainV := [3.0%float; InnerLoopGain];
            outerLoopGainBP := [0; 9]%float;
            outerLoopGainV := [1.5%float; OuterLoopGain];
            timeConstantBP := [0; 9]%float;
            timeConstantV := [2.0%float; TimeConstant];
            actuatorEffectivenessBP := [0; 9]%float;
            actuatorEffectivenessV := [3.0%float; ActuatorEffectiveness] |}
  else if lat_control_method =? 2 then
    lqr {| lqr_scale := Scale;
           lqr_ki := LqrKi;
           lqr_a := [0; 1; -0.22619643; 1.21822268]%float;
           lqr_b := [-1.92006585e-04; 3.95603032e-05]%float;
           lqr_c := [1; 0]%float;
           lqr_k := [-110; 451]%float;
           lqr_l := [0.33; 0.318]%float;
           lqr_dcGain := DcGain |}
  else std.

(** Lines 108-195: the chain on [candidate], as the pair
    [(ret.mass, ret.wheelbase)] it leaves behind.  The chain has no
    final [else]: an identifier no branch matches leaves both fields
    as they were. *)
Definition vehicle_entry (candidate : string) (mass0 wheelbase0 : float)
    : float * float :=
  if is_car candidate GENESIS then ((1900 + STD_CARGO_KG)%float, 3.01%float)
  else if is_car candidate GENESIS_G70 then ((1640 + STD_CARGO_KG)%float, 2.84%float)
  else if is_car candidate GENESIS_G80 then ((1855 + STD_CARGO_KG)%float, 3.01%float)
  else if is_car candidate GENESIS_G90 then (2200%float, 3.15%float)
  else if is_car candidate SANTA_FE then ((1694 + STD_CARGO_KG)%float, 2.765%float)
  else if in_cars candidate [SONATA; SONATA_HEV] then ((1513 + STD_CARGO_KG)%float, 2.84%float)
  else if is_car candidate SONATA_LF then ((4497 * LB_TO_KG)%float, 2.804%float)
  else if is_car candidate SONATA_LF_TURBO then ((1470 + STD_CARGO_KG)%float, 2.805%float)
  else if is_car candidate SONATA_LF_HEV then ((1595 + STD_CARGO_KG)%float, 2.805%float)
  else if is_car candidate PALISADE then ((1999 + STD_CARGO_KG)%float, 2.90%float)
  else if is_car candidate AVANTE then ((1245 + STD_CARGO_KG)%float, 2.72%float)
  else if is_car candidate I30 then ((1380 + STD_CARGO_KG)%float, 2.65%float)
  else if is_car candidate KONA then ((1275 + STD_CARGO_KG)%float, 2.7%float)
  else if in_cars candidate [KONA_HEV; KONA_EV] then ((1425 + STD_CARGO_KG)%float, 2.6%float)
  else if in_cars candidate [IONIQ_HEV; IONIQ_EV] then ((1490 + STD_CARGO_KG)%float, 2.7%float)
  else if in_cars candidate [GRANDEUR_IG; GRANDEUR_IG_HEV] then ((1675 + STD_CARGO_KG)%float, 2.845%float)
  else if in_cars candidate [GRANDEUR_IG_FL; GRANDEUR_IG_FL_HEV] then ((1725 + STD_CARGO_KG)%float, 2.885%float)
  else if is_car candidate VELOSTER then ((3558 * LB_TO_KG)%float, 2.80%float)
  else if is_car candidate NEXO then ((1885 + STD_CARGO_KG)%float, 2.79%float)
  else if is_car candidate SORENTO then ((1985 + STD_CARGO_KG)%float, 2.78%float)
  else if in_cars candidate [K5; K5_HEV] then ((1600 + STD_CARGO_KG)%float, 2.805%float)
  else if is_car candidate STINGER then ((1825.0 + STD_CARGO_KG)%float, 2.906%float)
  else if is_car candidate K3 then ((1260 + STD_CARGO_KG)%float, 2.70%float)
  else if is_car candidate CEED then ((1350 + STD_CARGO_KG)%float, 2.65%float)
  else if is_car candidate SPORTAGE then ((1985 + STD_CARGO_KG)%float, 2.78%float)
  else if in_cars candidate [NIRO_HEV; NIRO_EV] then ((1737 + STD_CARGO_KG)%float, 2.7%float)
  else if in_cars candidate [K7; K7_HEV] then ((1680 + STD_CARGO_KG)%float, 2.855%float)
  else if is_car candidate SELTOS then ((1310 + STD_CARGO_KG)%float, 2.6%float)
  else if is_car candidate SOUL_EV then ((1375 + STD_CARGO_KG)%float, 2.6%float)
  else (mass0, wheelbase0).

(** Lines 24-267.  The assignments to [ret] are straight-line, so the
    function binds each assigned value in source order and builds the
    record once at the end; a later assignment to the same field
    shadows the earlier one. *)
Definition get_params (candidate : string) (fingerprint : Fingerprint)
    (params : Params) : result CarParams :=
  let ret := get_std_params candidate fingerprint in
  let carName := "hyundai" in
  let safetyModel := hyundai in
  PidKp ← read_scaled params "PidKp" "0.01";
  PidKi ← read_scaled params "PidKi" "0.001";
  PidKd ← read_scaled params "PidKd" "0.01";
  PidKf ← read_scaled params "PidKf" "0.00001";
  InnerLoopGain ← read_scaled params "InnerLoopGain" "0.1";
  OuterLoopGain ← read_scaled params "OuterLoopGain" "0.1";
  TimeConstant ← read_scaled params "TimeConstant" "0.1";
  ActuatorEffectiveness ← read_scaled params "ActuatorEffectiveness" "0.1";
  Scale ← read_scaled params "Scale" "1.0";
  LqrKi ← read_scaled params "LqrKi" "0.001";
  DcGain ← read_scaled params "DcGain" "0.0001";
  SteerMaxV ← read_scaled params "SteerMaxvAdj" "0.1";
  let communityFeature := false in
  tire_stiffness_factor ← read_scaled params "TireStiffnessFactorAdj" "0.01";
  steerActuatorDelay ← read_scaled params "SteerActuatorDelayAdj" "0.01";
  steerRateCost ← read_scaled params "SteerRateCostAdj" "0.01";
  steerLimitTimer ← read_scaled params "SteerLimitTimerAdj" "0.01";
  steerRatio ← read_scaled params "SteerRatioAdj" "0.1";
  lat_control_method ← read_int params "LateralControlMethod";
  let shane_feed_forward := get_bool params "ShaneFeedForward" in
  let lateralTuning :=
    select_lateral lat_control_method shane_feed_forward
      PidKp PidKi PidKd PidKf
      InnerLoopGain OuterLoopGain TimeConstant ActuatorEffectiveness
      Scale LqrKi DcGain (lateralTuning ret) in
  let steerMaxV := [SteerMaxV] in
  let steerMaxBP := [0]%float in
  let '(mass, wheelbase) := vehicle_entry candidate (mass ret) (wheelbase ret) in
  let radarTimeStep := 0.05%float in
  let centerToFront := (wheelbase * 0.4)%float in
  rotationalInertia ← scale_rot_inertia mass wheelbase;
  stiffness ←
    scale_tire_stiffness mass wheelbase centerToFront tire_stiffness_factor;
  let '(tireStiffnessFront, tireStiffnessRear) :=
    (stiffness : float * float) in
  let steerRatioRear := 0%float in
  let steerControlType := torque in
  let gasMaxBP := [0; 4; 9; 17; 23; 31]%float in
  let gasMaxV := [1.5; 1.2; 0.7; 0.5; 0.4; 0.3]%float in
  let brakeMaxBP := [0; 8]%float in
  let brakeMaxV := [0.7; 3.0]%float in
  let longitudinalTuning :=
    {| kpBP := [0; 4; 9; 17; 23; 31]%float;
       kpV := [0.35; 0.6; 0.58; 0.34; 0.28; 0.19]%float;
       kiBP := [0; 4; 9; 17; 23; 31]%float;
       kiV := [0.019; 0.021; 0.02; 0.019; 0.017; 0.016]%float;
       deadzoneBP := [0; 9; 17]%float;
       deadzoneV := [0; 0.1; 0.05]%float;
       kdBP := [0; 4; 9; 17; 23; 31]%float;
       kdV := [0.6; 1.1; 1.0; 0.8; 0.6; 0.5]%float;
       kfBP := [0; 4; 9; 17; 23; 31]%float;
       kfV := [1.0; 1.2; 1.5; 1.0; 0.9; 0.8]%float |} in
  let enableCamera := true in
  enableBsm ← in_bus 0x58b fingerprint 0;
  let stoppingControl := true in
  let startAccel := 0.2%float in
  let vCruisekph := 0%float in
  let mdpsBus := if get_bool params "MdpsHarness" then 1 else 0 in
  on688 ← in_bus 688 fingerprint 0;
  let sasBus := if on688 || negb (mdpsBus =? 1) then 0 else 1 in
  on1057 ← in_bus 1057 fingerprint 2;
  sccBus ← (if on1057 && false then Ok 2
            else on1057' ← in_bus 1057 fingerprint 0;
                 Ok (if (on1057' : bool) then 0 else -1));
  on909 ← in_bus 909 fingerprint 0;
  fcaBus ← (if (on909 : bool) then Ok 0
            else on909' ← in_bus 909 fingerprint 2;
                 Ok (if (on909' : bool) then 2 else -1));
  on1419 ← in_bus 1419 fingerprint 0;
  let bsmAvailable := if (on1419 : bool) then true else false in
  on1157 ← in_bus 1157 fingerprint 2;
  let lfaAvailable := if (on1157 : bool) then true else false in
  on871 ← in_bus 871 fingerprint 0;
  let lvrAvailable := if (on871 : bool) then true else false in
  on882 ← in_bus 882 fingerprint 0;
  let evgearAvailable := if (on882 : bool) then true else false in
  on809 ← in_bus 809 fingerprint 0;
  let emsAvailable := if int_and 608 on809 then true else false in
  let minSteerSpeed := if mdpsBus =? 1 then 0%float else minSteerSpeed ret in
  let centerToFront := (wheelbase * 0.4)%float in
  let openpilotLongitudinalControl := true in
  let safetyModel := hyundaiCommunityVisionOnly in
  let sccBus := -1 in
  let enableCruise := false in
  let radarOffCan := true in
  let fcaBus := if fcaBus =? 0 then -1 else fcaBus in
  let standStill := false in
  Ok {| carName := carName;
          safetyModel := safetyModel;
          communityFeature := communityFeature;
          steerActuatorDelay := steerActuatorDelay;
          steerRateCost := steerRateCost;
          steerLimitTimer := steerLimitTimer;
          steerRatio := steerRatio;
          lateralTuning := lateralTuning;
          steerMaxV := steerMaxV;
          steerMaxBP := steerMaxBP;
          mass := mass;
          wheelbase := wheelbase;
          radarTimeStep := radarTimeStep;
          centerToFront := centerToFront;
          rotationalInertia := rotationalInertia;
          tireStiffnessFront := tireStiffnessFront;
          tireStiffnessRear := tireStiffnessRear;
          steerRatioRear := steerRatioRear;
          steerControlType := steerControlType;
          gasMaxBP := gasMaxBP; gasMaxV := gasMaxV;
          brakeMaxBP := brakeMaxBP; brakeMaxV := brakeMaxV;
          longitudinalTuning := longitudinalTuning;
          enableCamera := enableCamera;
          enableBsm := enableBsm;
          stoppingControl := stoppingControl;
          startAccel := startAccel;
          vCruisekph := vCruisekph;
          mdpsBus := mdpsBus;
          sasBus := sasBus;
          sccBus := sccBus;
          fcaBus := fcaBus;
          bsmAvailable := bsmAvailable;
          lfaAvailable := lfaAvailable;
          lvrAvailable := lvrAvailable;
          evgearAvailable := evgearAvailable;
          emsAvailable := emsAvailable;
          minSteerSpeed := minSteerSpeed;
          openpilotLongitudinalControl := openpilotLongitudinalControl;
          enableCruise := enableCruise;
          radarOffCan := radarOffCan;
          standStill := standStill |}.

(** The keys lines 31-51 read, each with its scale factor. *)
Definition scaled_keys : list (string * string) :=
  [ ("PidKp", "0.01"); ("PidKi", "0.001"); ("PidKd", "0.01");
    ("PidKf", "0.00001");
    ("InnerLoopGain", "0.1"); ("OuterLoopGain", "0.1");
    ("TimeConstant", "0.1"); ("ActuatorEffectiveness", "0.1");
    ("Scale", "1.0"); ("LqrKi", "0.001"); ("DcGain", "0.0001");
    ("SteerMaxvAdj", "0.1");
    ("TireStiffnessFactorAdj", "0.01"); ("SteerActuatorDelayAdj", "0.01");
    ("SteerRateCostAdj", "0.01"); ("SteerLimitTimerAdj", "0.01");
    ("SteerRatioAdj", "0.1") ].

(** Every key of lines 31-53 is present and well formed. *)
Definition readable (params : Params) : bool :=
  forallb (fun ks => is_ok (read_scaled params (fst ks) (snd ks))) scaled_keys
  && is_ok (read_int params "LateralControlMethod").

(** Buses 0 and 2 are keys of the fingerprint. *)
Definition probed (fingerprint : Fingerprint) : bool :=
  is_ok (fp_bus fingerprint 0) && is_ok (fp_bus fingerprint 2).

(** The two scaling helpers of lines 202-207 return on the mass and
    the wheelbase the registry leaves for this identifier. *)
Definition scaled (candidate : string) (fingerprint : Fingerprint)
    (params : Params) : bool :=
  match read_scaled params "TireStiffnessFactorAdj" "0.01" with
  | Raise _ => false
  | Ok tire_stiffness_factor =>
      let ret := get_std_params candidate fingerprint in
      let '(mass, wheelbase) :=
        vehicle_entry candidate (mass ret) (wheelbase ret) in
      is_ok (scale_rot_inertia mass wheelbase)
      && is_ok (scale_tire_stiffness mass wheelbase (wheelbase * 0.4)%float
                  tire_stiffness_factor)
  end.

End GetParams.

(** ** The per-cycle messages and objects *)

Module EventName.
(** The event names the file adds; [other] stands for the rest of the
    schema's enumeration, which only [create_common_events] produces. *)
Inductive t : Type :=
  | buttonEnable | pcmEnable | buttonCancel | pcmDisable
  | parkBrake | brakeUnavailable
  | laneChangeManual | emgButtonManual
  | modeChangeOpenpilot | modeChangeDistcurv | modeChangeDistance
  | modeChangeOneway | modeChangeMaponly
  | other (code : Z).
End EventName.

Module ButtonType.
Inductive t : Type :=
  | unknown | accelCruise | decelCruise | gapAdjustCruise | cancel | altButton3.
End ButtonType.

(** values.Buttons: the raw codes of the cruise buttons. *)
Record ButtonCodes : Type := {
  RES_ACCEL : Z;
  SET_DECEL : Z;
  GAP_DIST : Z;
  CANCEL : Z }.

Record ButtonEvent : Type := {
  type : ButtonType.t;
  pressed : bool }.

Record CruiseState : Type := {
  modeSel : Z }.

(** car.CarState, the message [CS.update] returns and [update] completes. *)
Record CarStateMsg : Type := {
  vEgo : float;
  brakePressed : bool;
  standstill : bool;
  cruiseState : CruiseState;
  canValid : bool;
  steeringRateLimited : bool;
  buttonEvents : list ButtonEvent;
  events : list EventName.t }.

(** [self.CS], the CarState object. *)
Record CarStateObj : Type := {
  parkBrake : bool;
  brakeUnavailable : bool;
  cruise_buttons : Z;
  prev_cruise_buttons : Z;
  cruise_main_button : Z;
  prev_cruise_main_button : Z;
  out : CarStateMsg }.

(** [self.CC], the CarController object. *)
Record CarController : Type := {
  enabled : bool;
  usestockscc : bool;
  steer_rate_limited : bool;
  lanechange_manual_timer : Z;
  emergency_manual_timer : Z;
  mode_change_timer : Z;
  acc_standstill_timer : Z;
  setspeed : float;
  clu11_speed : float }.

(** The adapter instance: the attributes [update] owns.  [self.CC] is
    written by the controller's own [update] between cycles, so its
    fields arrive with each cycle (see [Cycle]); [update] reads
    [self.CC] on every path (line 294), so a cycle that returns has a
    controller. *)
Record CarInterface : Type := {
  self_CP : CarParams;
  self_CS : CarStateObj;
  self_low_speed_alert : bool;
  self_buttonEvents : list ButtonEvent;
  self_frame : Z }.

(** What the collaborators hand to one cycle: the validity of the three
    parsers after [update_strings], the CarState object as [CS.update]
    leaves it together with the message it returns, the controller as
    the last [apply] left it, and the events of
    [create_common_events]. *)
Record Cycle : Type := {
  cp_can_valid : bool;
  cp2_can_valid : bool;
  cp_cam_can_valid : bool;
  CS_updated : CarStateObj;
  CS_ret : CarStateMsg;
  CC_now : CarController;
  common_events : list EventName.t }.

(** Assignments to the three fields of [self.CP] that [update] writes. *)
Definition with_runtime (cp : CarParams) (ec ss : bool) (v : float) : CarParams :=
  {| carName := carName cp; safetyModel := safetyModel cp;
     communityFeature := communityFeature cp;
     steerActuatorDelay := steerActuatorDelay cp;
     steerRateCost := steerRateCost cp; steerLimitTimer := steerLimitTimer cp;
     steerRatio := steerRatio cp; lateralTuning := lateralTuning cp;
     steerMaxV := steerMaxV cp; steerMaxBP := steerMaxBP cp;
     mass := mass cp; wheelbase := wheelbase cp;
     radarTimeStep := radarTimeStep cp; centerToFront := centerToFront cp;
     rotationalInertia := rotationalInertia cp;
     tireStiffnessFront := tireStiffnessFront cp;
     tireStiffnessRear := tireStiffnessRear cp;
     steerRatioRear := steerRatioRear cp;
     steerControlType := steerControlType cp;
     gasMaxBP := gasMaxBP cp; gasMaxV := gasMaxV cp;
     brakeMaxBP := brakeMaxBP cp; brakeMaxV := brakeMaxV cp;
     longitudinalTuning := longitudinalTuning cp;
     enableCamera := enableCamera cp; enableBsm := enableBsm cp;
     stoppingControl := stoppingControl cp; startAccel := startAccel cp;
     vCruisekph := v;
     mdpsBus := mdpsBus cp; sasBus := sasBus cp;
     sccBus := sccBus cp; fcaBus := fcaBus cp;
     bsmAvailable := bsmAvailable cp; lfaAvailable := lfaAvailable cp;
     lvrAvailable := lvrAvailable cp; evgearAvailable := evgearAvailable cp;
     emsAvailable := emsAvailable cp;
     minSteerSpeed := minSteerSpeed cp;
     openpilotLongitudinalControl := openpilotLongitudinalControl cp;
     enableCruise := ec;
     radarOffCan := radarOffCan cp;
     standStill := ss |}.

Definition set_enableCruise (cp : CarParams) (b : bool) : CarParams :=
  with_runtime cp b (standStill cp) (vCruisekph cp).
Definition set_standStill (cp : CarParams) (b : bool) : CarParams :=
  with_runtime cp (enableCruise cp) b (vCruisekph cp).
Definition set_vCruisekph (cp : CarParams) (v : float) : CarParams :=
  with_runtime cp (enableCruise cp) (standStill cp) v.

(** [events.add(name)] *)
Definition add (events : list EventName.t) (name : EventName.t) : list EventName.t :=
  events ++ [name].

(** [a > b] on floats *)
Definition gt (a b : float) : bool := PrimFloat.ltb b a.

(** ** CarInterface.update *)

Section Update.

Variable Buttons : ButtonCodes.

(** Lines 298-307: the chain on the mode selector. *)
Definition add_mode_change (CC : CarController) (CS : CarStateObj)
    (events : list EventName.t) : list EventName.t :=
  let sel := modeSel (cruiseState (out CS)) in
  if truthy (mode_change_timer CC) && (sel =? 0) then
    add events EventName.modeChangeOpenpilot
  else if truthy (mode_change_timer CC) && (sel =? 1) then
    add events EventName.modeChangeDistcurv
  else if truthy (mode_change_timer CC) && (sel =? 2) then
    add events EventName.modeChangeDistance
  else if truthy (mode_change_timer CC) && (sel =? 3) then
    add events EventName.modeChangeOneway
  else if truthy (mode_change_timer CC) && (sel =? 4) then
    add events EventName.modeChangeMaponly
  else events.

(** Lines 320-329: the type of a cruise-button event. *)
Definition button_type (but : Z) : ButtonType.t :=
  if but =? RES_ACCEL Buttons then ButtonType.accelCruise
  else if but =? SET_DECEL Buttons then ButtonType.decelCruise
  else if but =? GAP_DIST Buttons then ButtonType.gapAdjustCruise
  else if but =? CANCEL Buttons then ButtonType.cancel
  else ButtonType.unknown.

(** Lines 315-338: edge detection.  The result is the new value of
    [self.buttonEvents]: the local list when an edge assigned it (the
    second assignment carries the first edge's event as well, both
    being appended to the same local list), the stored list otherwise. *)
Definition button_edges (CS : CarStateObj) (stored : list ButtonEvent)
    : list ButtonEvent :=
  let buttonEvents := [] in
  let '(buttonEvents, stored) :=
    if negb (cruise_buttons CS =? prev_cruise_buttons CS) then
      let be := {| pressed := negb (cruise_buttons CS =? 0);
                   type := button_type (cruise_buttons CS) |} in
      let buttonEvents := buttonEvents ++ [be] in
      (buttonEvents, buttonEvents)
    else (buttonEvents, stored) in
  let '(buttonEvents, stored) :=
    if negb (cruise_main_button CS =? prev_cruise_main_button CS) then
      let be := {| type := ButtonType.altButton3;
                   pressed := truthy (cruise_main_button CS) |} in
      let buttonEvents := buttonEvents ++ [be] in
      (buttonEvents, buttonEvents)
    else (buttonEvents, stored) in
  stored.

Definition is_type (b : ButtonEvent) (ty : ButtonType.t) : bool :=
  match type b, ty with
  | ButtonType.unknown, ButtonType.unknown
  | ButtonType.accelCruise, ButtonType.accelCruise
  | ButtonType.decelCruise, ButtonType.decelCruise
  | ButtonType.gapAdjustCruise, ButtonType.gapAdjustCruise
  | ButtonType.cancel, ButtonType.cancel
  | ButtonType.altButton3, ButtonType.altButton3 => true
  | _, _ => false
  end.

(** Lines 345-355: the body of the loop over the stored events. *)
Definition handle_button (CC : CarController) (ret : CarStateMsg)
    (events : list EventName.t) (b : ButtonEvent) : list EventName.t :=
  let events :=
    if is_type b ButtonType.decelCruise && pressed b
       && (negb (brakePressed ret) || standstill ret)
    then add (add events EventName.buttonEnable) EventName.pcmEnable
    else events in
  let events :=
    if is_type b ButtonType.accelCruise && pressed b
       && (gt (setspeed CC) (clu11_speed CC - 2)%float
           || standstill ret || usestockscc CC)
    then add (add events EventName.buttonEnable) EventName.pcmEnable
    else events in
  let events :=
    if is_type b ButtonType.cancel && pressed b
    then add (add events EventName.buttonCancel) EventName.pcmDisable
    else events in
  events.

(** Lines 343-355. *)
Definition handle_buttons (CP : CarParams) (CC : CarController)
    (ret : CarStateMsg) (stored : list ButtonEvent)
    (events : list EventName.t) : list EventName.t :=
  if negb (enableCruise CP) then
    fold_left (handle_button CC ret) stored events
  else events.

(** Lines 290-307: the events read off the CarState object and the
    controller's timers. *)
Definition status_events (CC : CarController) (CS : CarStateObj)
    (ret : CarStateMsg) (events : list EventName.t) : list EventName.t :=
  let events :=
    if parkBrake CS && negb (usestockscc CC)
    then add events EventName.parkBrake else events in
  let events :=
    if brakeUnavailable CS && negb (usestockscc CC)
    then add events EventName.brakeUnavailable else events in
  let events :=
    if truthy (lanechange_manual_timer CC) && gt (vEgo ret) 0.3
    then add events EventName.laneChangeManual else events in
  let events :=
    if truthy (emergency_manual_timer CC)
    then add events EventName.emgButtonManual else events in
  add_mode_change CC CS events.

(** Lines 269-362: one cycle, from the instance and what the
    collaborators supply to the instance after the cycle and the
    message returned.  The fields written on [ret] (lines 274, 279, 340
    and 360) are gathered in the record built at the end; the lines in
    between read only [vEgo], [brakePressed] and [standstill], which
    [CS.update] set. *)
Definition update (self : CarInterface) (c : Cycle) : CarInterface * CarStateMsg :=
  let CS := CS_updated c in
  let CC := CC_now c in
  let CP := self_CP self in
  let ret := CS_ret c in
  let canValid := cp_can_valid c && cp2_can_valid c && cp_cam_can_valid c in
  let events := common_events c in
  let steeringRateLimited := steer_rate_limited CC in
  let low_speed_alert :=
    if gt (vEgo ret) (minSteerSpeed CP + 0.84)%float || negb (enabled CC)
    then false else self_low_speed_alert self in
  let CP := if sccBus CP =? 2 then set_enableCruise CP (usestockscc CC) else CP in
  let events := status_events CC CS ret events in
  let CP :=
    if 200 <=? acc_standstill_timer CC
    then set_standStill CP true else set_standStill CP false in
  let CP := set_vCruisekph CP (setspeed CC) in
  let stored := button_edges CS (self_buttonEvents self) in
  let events := handle_buttons CP CC ret stored events in
  let ret :=
    {| vEgo := vEgo ret; brakePressed := brakePressed ret;
       standstill := standstill ret; cruiseState := cruiseState ret;
       canValid := canValid;
       steeringRateLimited := steeringRateLimited;
       buttonEvents := stored;
       events := events |} in
  let CS :=
    {| parkBrake := parkBrake CS; brakeUnavailable := brakeUnavailable CS;
       cruise_buttons := cruise_buttons CS;
       prev_cruise_buttons := prev_cruise_buttons CS;
       cruise_main_button := cruise_main_button CS;
       prev_cruise_main_button := prev_cruise_main_button CS;
       out := ret |} in
  ({| self_CP := CP; self_CS := CS;
      self_low_speed_alert := low_speed_alert;
      self_buttonEvents := stored;
      self_frame := self_frame self |}, ret).

(** The instance after a sequence of cycles. *)
Definition run (self : CarInterface) (cycles : list Cycle) : CarInterface :=
  fold_left (fun s c => fst (update s c)) cycles self.

End Update.

(** The five mode-change events. *)
Definition is_mode_change (e : EventName.t) : bool :=
  match e with
  | EventName.modeChangeOpenpilot | EventName.modeChangeDistcurv
  | EventName.modeChangeDistance | EventName.modeChangeOneway
  | EventName.modeChangeMaponly => true
  | _ => false
  end.

(** The events a cycle appends to those of [create_common_events]. *)
Definition added_events (Buttons : ButtonCodes) (self : CarInterface)
    (c : Cycle) : list EventName.t :=
  skipn (length (common_events c)) (events (snd (update Buttons self c))).

(** Occurrences of an event name in a list of events. *)
Definition same_event (a b : EventName.t) : bool :=
  match a, b with
  | EventName.buttonEnable, EventName.buttonEnable
  | EventName.pcmEnable, EventName.pcmEnable
  | EventName.buttonCancel, EventName.buttonCancel
  | EventName.pcmDisable, EventName.pcmDisable
  | EventName.parkBrake, EventName.parkBrake
  | EventName.brakeUnavailable, EventName.brakeUnavailable
  | EventName.laneChangeManual, EventName.laneChangeManual
  | EventName.emgButtonManual, EventName.emgButtonManual
  | EventName.modeChangeOpenpilot, EventName.modeChangeOpenpilot
  | EventName.modeChangeDistcurv, EventName.modeChangeDistcurv
  | EventName.modeChangeDistance, EventName.modeChangeDistance
  | EventName.modeChangeOneway, EventName.modeChangeOneway
  | EventName.modeChangeMaponly, EventName.modeChangeMaponly => true
  | EventName.other m, EventName.other n => m =? n
  | _, _ => false
  end.

Definition occurrences (e : EventName.t) (l : list EventName.t) : nat :=
  length (List.filter (same_event e) l).

(** A breakpoint list is paired with a value list of the same length and
    is strictly increasing. *)
Fixpoint increasing (bp : list float) : bool :=
  match bp with
  | [] => true
  | x :: rest =>
      match rest with
      | [] => true
      | y :: _ => PrimFloat.ltb x y && increasing rest
      end
  end.

Definition curve_ok (c : list float * list float) : bool :=
  (length (fst c) =? length (snd c))%nat && increasing (fst c).

(** The breakpoint/value curves of a lateral tuning and of a record. *)
Definition lateral_curves (t : LateralTuning) : list (list float * list float) :=
  match t with
  | pid p =>
      [ (pid_kpBP p, pid_kpV p); (pid_kiBP p, pid_kiV p);
        (pid_kdBP p, pid_kdV p) ]
  | indi i =>
      [ (innerLoopGainBP i, innerLoopGainV i);
        (outerLoopGainBP i, outerLoopGainV i);
        (timeConstantBP i, timeConstantV i);
        (actuatorEffectivenessBP i, actuatorEffectivenessV i) ]
  | lqr _ => []
  end.

Definition curves (cp : CarParams) : list (list float * list float) :=
  lateral_curves (lateralTuning cp)
  ++ [ (steerMaxBP cp, steerMaxV cp);
       (gasMaxBP cp, gasMaxV cp); (brakeMaxBP cp, brakeMaxV cp);
       (kpBP (longitudinalTuning cp), kpV (longitudinalTuning cp));
       (kiBP (longitudinalTuning cp), kiV (longitudinalTuning cp));
       (deadzoneBP (longitudinalTuning cp), deadzoneV (longitudinalTuning cp));
       (kdBP (longitudinalTuning cp), kdV (longitudinalTuning cp));
       (kfBP (longitudinalTuning cp), kfV (longitudinalTuning cp)) ].

(** The union member a method value selects. *)
Definition variant_of (t : LateralTuning) : Z :=
  match t with
  | pid _ => 0
  | indi _ => 1
  | lqr _ => 2
  end.

(** The conditions of lines 345-346, 349-350 and 353 on one stored
    button event. *)
Definition enabling (CC : CarController) (ret : CarStateMsg)
    (b : ButtonEvent) : bool :=
  (is_type b ButtonType.decelCruise && pressed b
   && (negb (brakePressed ret) || standstill ret))
  || (is_type b ButtonType.accelCruise && pressed b
      && (gt (setspeed CC) (clu11_speed CC - 2)%float
          || standstill ret || usestockscc CC)).

Definition cancelling (b : ButtonEvent) : bool :=
  is_type b ButtonType.cancel && pressed b.

(** The four events of the loop over the stored button events. *)
Definition is_button_name (e : EventName.t) : bool :=
  match e with
  | EventName.buttonEnable | EventName.pcmEnable
  | EventName.buttonCancel | EventName.pcmDisable => true
  | _ => false
  end.

(** The mode-change event of each value of the mode selector. *)
Definition mode_change_events : list EventName.t :=
  [ EventName.modeChangeOpenpilot; EventName.modeChangeDistcurv;
    EventName.modeChangeDistance; EventName.modeChangeOneway;
    EventName.modeChangeMaponly ].

(** A cycle with no edge on either button. *)
Definition quiet (c : Cycle) : bool :=
  (cruise_buttons (CS_updated c) =? prev_cruise_buttons (CS_updated c))
  && (cruise_main_button (CS_updated c)
      =? prev_cruise_main_button (CS_updated c)).

(** What [get_params] resolves from the fingerprint: the buses and the
    feature flags. *)
Definition topology (cp : CarParams) : list Z * list bool :=
  ([mdpsBus cp; sasBus cp; sccBus cp; fcaBus cp],
   [enableBsm cp; bsmAvailable cp; lfaAvailable cp; lvrAvailable cp;
    evgearAvailable cp; emsAvailable cp]).

(** ** CarInterface.__init__ and CarInterface.apply *)

(** Lines 14-17: on top of what the base class set up, the stored
    button events start empty. *)
Definition init (base : CarInterface) : CarInterface :=
  {| self_CP := self_CP base;
     self_CS := self_CS base;
     self_low_speed_alert := self_low_speed_alert base;
     self_buttonEvents := [];
     self_frame := self_frame base |}.

Section Apply.

(** The controller's [update] and the types it handles are outside the
    file; [apply] forwards its arguments to it untouched. *)
Variables Actuators VisualAlert SubMaster CanSends : Type.

Record HUDControl : Type := {
  visualAlert : VisualAlert;
  leftLaneVisible : bool;
  rightLaneVisible : bool;
  leftLaneDepart : bool;
  rightLaneDepart : bool;
  setSpeed : float;
  leadVisible : bool;
  leadDistance : float;
  leadvRel : float;
  leadyRel : float }.

Record CruiseControl : Type := {
  cruise_cancel : bool }.

(** car.CarControl, the argument [c] of [apply]. *)
Record CarControl : Type := {
  c_enabled : bool;
  actuators : Actuators;
  cruiseControl : CruiseControl;
  hudControl : HUDControl }.

(** [self.CC.update(...)]: the controller after the call and the frames
    to send. *)
Variable CC_update :
  CarController -> bool -> CarStateObj -> Z -> Actuators -> bool ->
  VisualAlert -> bool -> bool -> bool -> bool ->
  float -> bool -> float -> float -> float -> SubMaster ->
  CarController * CanSends.

Variable Buttons : ButtonCodes.

(** Lines 364-371. *)
Definition apply (self : CarInterface) (CC : CarController)
    (c : CarControl) (sm : SubMaster)
    : CarInterface * CarController * CanSends :=
  let '(CC, can_sends) :=
    CC_update CC (c_enabled c) (self_CS self) (self_frame self) (actuators c)
      (cruise_cancel (cruiseControl c))
      (visualAlert (hudControl c))
      (leftLaneVisible (hudControl c)) (rightLaneVisible (hudControl c))
      (leftLaneDepart (hudControl c)) (rightLaneDepart (hudControl c))
      (setSpeed (hudControl c)) (leadVisible (hudControl c))
      (leadDistance (hudControl c)) (leadvRel (hudControl c))
      (leadyRel (hudControl c)) sm in
  ({| self_CP := self_CP self;
      self_CS := self_CS self;
      self_low_speed_alert := self_low_speed_alert self;
      self_buttonEvents := self_buttonEvents self;
      self_frame := self_frame self + 1 |}, CC, can_sends).

(** A call of one of the two per-cycle methods. *)
Inductive call : Type :=
  | call_update (c : Cycle)
  | call_apply (CC : CarController) (c : CarControl) (sm : SubMaster).

(** The instance after a sequence of calls, in any order. *)
Definition exec (self : CarInterface) (calls : list call) : CarInterface :=
  fold_left
    (fun s k =>
       match k with
       | call_update c => fst (update Buttons s c)
       | call_apply CC c sm => fst (fst (apply s CC c sm))
       end)
    calls self.

Definition applies (calls : list call) : Z :=
  Z.of_nat (length (List.filter
                      (fun k => match k with
                                | call_apply _ _ _ => true
                                | call_update _ => false
                                end) calls)).

End Apply.

(** ** The spec's error kinds *)



(** ** A concrete environment

    One instance of the imports, to evaluate the model on inputs: the
    identifiers are spelled as the [CAR] names, the conversions read
    strings of decimal digits, [get_std_params] answers one fixed
    record, whose mass and wheelbase are zero, and the scaling helpers
    are the ones of [selfdrive.car]. *)
Module Demo.

Definition car_name (c : CAR) : string :=
  match c with
  | GENESIS => "GENESIS" | GENESIS_G70 => "GENESIS_G70"
  | GENESIS_G80 => "GENESIS_G80" | GENESIS_G90 => "GENESIS_G90"
  | SANTA_FE => "SANTA_FE" | SONATA => "SONATA" | SONATA_HEV => "SONATA_HEV"
  | SONATA_LF => "SONATA_LF" | SONATA_LF_TURBO => "SONATA_LF_TURBO"
  | SONATA_LF_HEV => "SONATA_LF_HEV"
  | PALISADE => "PALISADE" | AVANTE => "AVANTE" | I30 => "I30"
  | KONA => "KONA" | KONA_HEV => "KONA_HEV" | KONA_EV => "KONA_EV"
  | IONIQ_HEV => "IONIQ_HEV" | IONIQ_EV => "IONIQ_EV"
  | GRANDEUR_IG => "GRANDEUR_IG" | GRANDEUR_IG_HEV => "GRANDEUR_IG_HEV"
  | GRANDEUR_IG_FL => "GRANDEUR_IG_FL"
  | GRANDEUR_IG_FL_HEV => "GRANDEUR_IG_FL_HEV"
  | VELOSTER => "VELOSTER" | NEXO => "NEXO"
  | SORENTO => "SORENTO" | K5 => "K5" | K5_HEV => "K5_HEV"
  | STINGER => "STINGER" | K3 => "K3" | CEED => "CEED"
  | SPORTAGE => "SPORTAGE"
  | NIRO_HEV => "NIRO_HEV" | NIRO_EV => "NIRO_EV"
  | K7 => "K7" | K7_HEV => "K7_HEV" | SELTOS => "SELTOS"
  | SOUL_EV => "SOUL_EV"
  end.

Definition STD_CARGO_KG : float := 136%float.
Definition LB_TO_KG : float := 0.453592%float.

(** Python's [a / b] on floats. *)
Definition divide (a b : float) : result float :=
  if PrimFloat.eqb b 0 then Raise ZeroDivisionError else Ok (a / b)%float.

(** The two helpers as [selfdrive.car] writes them, scaling from the
    constants of its [CivicParams]. *)
Definition CIVIC_MASS : float := (1326 + STD_CARGO_KG)%float.
Definition CIVIC_WHEELBASE : float := 2.70%float.
Definition CIVIC_CENTER_TO_FRONT : float := (CIVIC_WHEELBASE * 0.4)%float.
Definition CIVIC_CENTER_TO_REAR : float :=
  (CIVIC_WHEELBASE - CIVIC_CENTER_TO_FRONT)%float.

Definition scale_rot_inertia (mass wheelbase : float) : result float :=
  divide (2500 * mass * (wheelbase * wheelbase))%float
         (CIVIC_MASS * (CIVIC_WHEELBASE * CIVIC_WHEELBASE))%float.

Definition scale_tire_stiffness (mass wheelbase center_to_front factor : float)
    : result (float * float) :=
  let center_to_rear := (wheelbase - center_to_front)%float in
  rear_share ← divide center_to_rear wheelbase;
  let tire_stiffness_front :=
    (192150 * factor * mass / CIVIC_MASS * rear_share
     / (CIVIC_CENTER_TO_REAR / CIVIC_WHEELBASE))%float in
  front_share ← divide center_to_front wheelbase;
  let tire_stiffness_rear :=
    (202500 * factor * mass / CIVIC_MASS * front_share
     / (CIVIC_CENTER_TO_FRONT / CIVIC_WHEELBASE))%float in
  Ok (tire_stiffness_front, tire_stiffness_rear).

Definition std_params : CarParams :=
  {| carName := ""; safetyModel := hyundai; communityFeature := false;
     steerActuatorDelay := 0; steerRateCost := 0; steerLimitTimer := 0;
     steerRatio := 0;
     lateralTuning :=
       pid {| pid_kpBP := []; pid_kpV := []; pid_kiBP := []; pid_kiV := [];
              pid_kdBP := []; pid_kdV := []; pid_kf := 0;
              pid_newKfTuned := false |};
     steerMaxV := [1]%float; steerMaxBP := [0]%float;
     mass := 0; wheelbase := 0; radarTimeStep := 0; centerToFront := 0;
     rotationalInertia := 0; tireStiffnessFront := 0; tireStiffnessRear := 0;
     steerRatioRear := 0; steerControlType := torque;
     gasMaxBP := []; gasMaxV := []; brakeMaxBP := []; brakeMaxV := [];
     longitudinalTuning :=
       {| kpBP := []; kpV := []; kiBP := []; kiV := [];
          deadzoneBP := []; deadzoneV := []; kdBP := []; kdV := [];
          kfBP := []; kfV := [] |};
     enableCamera := false; enableBsm := false; stoppingControl := false;
     startAccel := 0; vCruisekph := 0;
     mdpsBus := 0; sasBus := 0; sccBus := 0; fcaBus := 0;
     bsmAvailable := false; lfaAvailable := false; lvrAvailable := false;
     evgearAvailable := false; emsAvailable := false;
     minSteerSpeed := 7.5;
     openpilotLongitudinalControl := false; enableCruise := true;
     radarOffCan := false; standStill := false |}%float.

Definition get_std_params (candidate : string) (fingerprint : Fingerprint)
    : CarParams := std_params.

(** Decimal digits to a number; [None] on anything else. *)
Definition digit (a : ascii) : option Z :=
  let n := Z.of_N (N_of_ascii a) in
  if (48 <=? n) && (n <=? 57) then Some (n - 48) else None.

Fixpoint digits (acc : Z) (s : string) : option Z :=
  match s with
  | EmptyString => Some acc
  | String a s' =>
      match digit a with
      | Some d => digits (10 * acc + d) s'
      | None => None
      end
  end.

Definition py_int (s : string) : option Z :=
  match s with
  | EmptyString => None
  | _ => digits 0 s
  end.

Definition float_of_Z (n : Z) : float := PrimFloat.of_uint63 (Uint63.of_Z n).

(** The power of ten a scale factor of the file divides by. *)
Definition divisor (scale : string) : option Z :=
  if bool_decide (scale = "1.0") then Some 1
  else if bool_decide (scale = "0.1") then Some 10
  else if bool_decide (scale = "0.01") then Some 100
  else if bool_decide (scale = "0.001") then Some 1000
  else if bool_decide (scale = "0.0001") then Some 10000
  else if bool_decide (scale = "0.00001") then Some 100000
  else None.

Definition decimal_product (s scale : string) : conversion :=
  match py_int s, divisor scale with
  | Some n, Some d => converted (float_of_Z n / float_of_Z d)%float
  | _, _ => invalid_operation
  end.

Definition get_params : string -> Fingerprint -> Params -> result CarParams :=
  get_params car_name STD_CARGO_KG LB_TO_KG
    scale_rot_inertia scale_tire_stiffness get_std_params
    decimal_product py_int.

(** A store with every key set; the method and the harness toggle vary. *)
Definition store (method harness : string) : gmap string string :=
  list_to_map
    [ ("PidKp", "25"); ("PidKi", "50"); ("PidKd", "150"); ("PidKf", "5");
      ("InnerLoopGain", "35"); ("OuterLoopGain", "20");
      ("TimeConstant", "14"); ("ActuatorEffectiveness", "20");
      ("Scale", "1500"); ("LqrKi", "15"); ("DcGain", "27");
      ("SteerMaxvAdj", "10");
      ("TireStiffnessFactorAdj", "85"); ("SteerActuatorDelayAdj", "35");
      ("SteerRateCostAdj", "45"); ("SteerLimitTimerAdj", "80");
      ("SteerRatioAdj", "155");
      ("LateralControlMethod", method);
      ("ShaneFeedForward", "0"); ("MdpsHarness", harness) ].

Definition params (method harness : string) : Params :=
  {| get := fun key => store method harness !! key;
     get_bool := fun key =>
       bool_decide (store method harness !! key = Some "1") |}.

(** Id 909 on buses 0 and 2, id 809 and id 608 on bus 0. *)
Definition fingerprint : Fingerprint :=
  list_to_map
    [ (0, list_to_map [(608, 8); (809, 8); (909, 8); (1419, 8)]);
      (1, ∅);
      (2, list_to_map [(909, 8); (1157, 4)]) ].

(** Id 909 on bus 2 only. *)
Definition fingerprint_fca2 : Fingerprint :=
  list_to_map
    [ (0, list_to_map [(688, 8)]);
      (1, ∅);
      (2, list_to_map [(909, 8)]) ].

Definition Buttons : ButtonCodes :=
  {| RES_ACCEL := 1; SET_DECEL := 2; GAP_DIST := 3; CANCEL := 4 |}.

(** Objects for one cycle. *)
Definition message (v : float) (brake still : bool) (sel : Z) : CarStateMsg :=
  {| vEgo := v; brakePressed := brake; standstill := still;
     cruiseState := {| modeSel := sel |};
     canValid := false; steeringRateLimited := false;
     buttonEvents := []; events := [] |}.

Definition car_state (buttons prev sel : Z) : CarStateObj :=
  {| parkBrake := false; brakeUnavailable := false;
     cruise_buttons := buttons; prev_cruise_buttons := prev;
     cruise_main_button := 0; prev_cruise_main_button := 0;
     out := message 0 false true sel |}.

Definition controller (on : bool) (mode_timer : Z) : CarController :=
  {| enabled := on; usestockscc := false; steer_rate_limited := false;
     lanechange_manual_timer := 0; emergency_manual_timer := 0;
     mode_change_timer := mode_timer; acc_standstill_timer := 0;
     setspeed := 30; clu11_speed := 40 |}%float.

(** A cycle with the cruise-button codes [buttons] (now) and [prev]
    (before), speed [v], brake pressed, not at standstill. *)
Definition cycle (buttons prev : Z) (v : float) (on : bool)
    (mode_timer sel : Z) : Cycle :=
  {| cp_can_valid := true; cp2_can_valid := true; cp_cam_can_valid := true;
     CS_updated := car_state buttons prev sel;
     CS_ret := message v true false sel;
     CC_now := controller on mode_timer;
     common_events := [EventName.other 7] |}.

Definition built : result CarParams :=
  get_params "SONATA" fingerprint (params "0" "1").

Definition params_of (r : result CarParams) : CarParams :=
  match r with
  | Ok cp => cp
  | Raise _ => std_params
  end.

(** The instance as constructed from [built], with the latch at [alert]. *)
Definition instance (alert : bool) : CarInterface :=
  {| self_CP := params_of built;
     self_CS := car_state 0 0 0;
     self_low_speed_alert := alert;
     self_buttonEvents := [];
     self_frame := 0 |}.

(** A bus-0-only fingerprint and one without bus 0. *)
Definition fingerprint_no2 : Fingerprint :=
  list_to_map [ (0, list_to_map [(688, 8)]); (1, ∅) ].

Definition fingerprint_no0 : Fingerprint :=
  list_to_map [ (1, ∅); (2, list_to_map [(909, 8)]) ].

(** A store without the key [PidKd] and without buses to go with it. *)
Definition params_without (key : string) : Params :=
  {| get := fun k => delete key (store "0" "1") !! k;
     get_bool := fun k =>
       bool_decide (delete key (store "0" "1") !! k = Some "1") |}.

(** The controller's [update] reduced to what it is called with. *)
Definition CC_update (CC : CarController) (on : bool) (CS : CarStateObj)
    (frame : Z) (a : unit) (cancel : bool) (va : unit)
    (llv rlv lld rld : bool) (ss : float) (lv : bool) (ld lvr lyr : float)
    (sm : unit) : CarController * list Z :=
  (CC, [frame]).

Definition control : CarControl unit unit :=
  {| c_enabled := true; actuators := tt;
     cruiseControl := {| cruise_cancel := false |};
     hudControl :=
       {| visualAlert := tt; leftLaneVisible := true; rightLaneVisible := true;
          leftLaneDepart := false; rightLaneDepart := false;
          setSpeed := 30; leadVisible := false;
          leadDistance := 0; leadvRel := 0; leadyRel := 0 |}%float |}.

(** A cycle whose stored CarState message says standstill. *)
Definition cycle_at (buttons prev : Z) (brake still : bool) : Cycle :=
  {| cp_can_valid := true; cp2_can_valid := true; cp_cam_can_valid := true;
     CS_updated := car_state buttons prev 0;
     CS_ret := message 0 brake still 0;
     CC_now := controller true 0;
     common_events := [] |}.

(** An instance holding the record of [get_std_params] (flag true) and a
    stored pressed cancel event. *)
Definition stock_instance : CarInterface :=
  {| self_CP := std_params;
     self_CS := car_state 0 0 0;
     self_low_speed_alert := false;
     self_buttonEvents := [ {| type := ButtonType.cancel; pressed := true |} ];
     self_frame := 0 |}.



End Demo.

(** * Properties *)

(** ** The error monad *)

Lemma bind_Ok_inv {A B} (m : result A) (f : A -> result B) (b : B) :
  m ≫= f = Ok b -> exists a, m = Ok a /\ f a = Ok b.
Proof. destruct m as [a|e]; simpl; [eauto | discriminate]. Qed.

Lemma in_bus_Ok x fingerprint bus b :
  in_bus x fingerprint bus = Ok b ->
  exists ids, fingerprint !! bus = Some ids /\ b = py_in x ids.
Proof.
  unfold in_bus, fp_bus. destruct (fingerprint !! bus) as [ids|]; simpl.
  - intros [= <-]. eauto.
  - discriminate.
Qed.

(** Peel the binds and the pair patterns of a successful [get_params]. *)
Ltac invert_binds H :=
  repeat (first
    [ apply bind_Ok_inv in H as (? & ? & H)
    | match type of H with
      | context [match ?p with pair _ _ => _ end] =>
          destruct p as [? ?] eqn:?
      end
    | progress cbv zeta in H ]).


(** ** get_params *)

Section GetParamsFacts.

Variable car_name : CAR -> string.
Variables STD_CARGO_KG LB_TO_KG : float.
Variable scale_rot_inertia : float -> float -> result float.
Variable scale_tire_stiffness :
  float -> float -> float -> float -> result (float * float).
Variable get_std_params : string -> Fingerprint -> CarParams.
Variable decimal_product : string -> string -> conversion.
Variable py_int : string -> option Z.

Let get_params' :=
  get_params car_name STD_CARGO_KG LB_TO_KG scale_rot_inertia
    scale_tire_stiffness get_std_params decimal_product py_int.

Let scaled' :=
  scaled car_name STD_CARGO_KG LB_TO_KG scale_rot_inertia
    scale_tire_stiffness get_std_params decimal_product.


(** A method other than 0, 1, 2 selects nothing. *)
Lemma select_lateral_other n sff a b c d e f g h i j k std :
  n <> 0 -> n <> 1 -> n <> 2 ->
  select_lateral n sff a b c d e f g h i j k std = std.
Proof.
  intros H0 H1 H2. unfold select_lateral.
  destruct (Z.eqb_spec n 0); [contradiction|].
  destruct (Z.eqb_spec n 1); [contradiction|].
  destruct (Z.eqb_spec n 2); [contradiction|].
  reflexivity.
Qed.

(** Construction succeeds exactly when the store is readable, the
    scaling helpers return and the fingerprint has buses 0 and 2. *)
Lemma get_params_is_ok candidate fingerprint params :
  is_ok (get_params' candidate fingerprint params)
  = readable decimal_product py_int params
    && scaled' candidate fingerprint params
    && probed fingerprint.
Proof.
  unfold get_params', get_params, readable, scaled', scaled, probed,
    scaled_keys.
  cbn [forallb fst snd].
  repeat match goal with
         | |- context [read_scaled ?d ?p ?k ?s ≫= _] =>
             destruct (read_scaled d p k s); cbn [mbind result_bind is_ok andb];
             [ | reflexivity ]
         end.
  destruct (read_int py_int params "LateralControlMethod");
    cbn [mbind result_bind is_ok andb]; [ | reflexivity ].
  destruct (vehicle_entry _ _ _ _ _ _) as [m w].
  destruct (scale_rot_inertia m w) as [ri|e];
    cbn [mbind result_bind is_ok andb]; [ | reflexivity ].
  destruct (scale_tire_stiffness _ _ _ _) as [[tf tr]|e];
    cbn [mbind result_bind is_ok andb]; [ | reflexivity ].
  unfold in_bus, fp_bus.
  destruct (fingerprint !! 0) as [fp0|]; cbn; [ | reflexivity ].
  destruct (fingerprint !! 2) as [fp2|]; cbn; [ | reflexivity ].
  destruct (py_in 1057 fp2); cbn; destruct (py_in 909 fp0); reflexivity.
Qed.

(** C2. For every candidate and every fingerprint, the record
    [get_params] returns has [sccBus] equal to -1. *)
Theorem get_params_sccBus candidate fingerprint params ret :
  get_params' candidate fingerprint params = Ok ret ->
  sccBus ret = -1.
Proof.
  unfold get_params', get_params. intros H.
  invert_binds H. injection H as <-. reflexivity.
Qed.

(** C5. For every fingerprint and candidate, when the MdpsHarness
    toggle is set the returned record has [mdpsBus] 1 and
    [minSteerSpeed] 0. *)
Theorem get_params_mdps_harness candidate fingerprint params ret :
  get_bool params "MdpsHarness" = true ->
  get_params' candidate fingerprint params = Ok ret ->
  mdpsBus ret = 1 /\ minSteerSpeed ret = 0%float.
Proof.
  unfold get_params', get_params. intros Hh H.
  invert_binds H. injection H as <-. cbn [mdpsBus minSteerSpeed].
  rewrite Hh. split; reflexivity.
Qed.

(** C6. For every fingerprint, the returned [fcaBus] is 2 exactly when
    id 909 is seen on bus 2 and not on bus 0, and -1 in every other
    case; it is never 0. *)
Theorem get_params_fcaBus candidate fingerprint params ret :
  get_params' candidate fingerprint params = Ok ret ->
  exists on0 on2,
    in_bus 909 fingerprint 0 = Ok on0 /\
    in_bus 909 fingerprint 2 = Ok on2 /\
    fcaBus ret = (if on2 && negb on0 then 2 else -1) /\
    fcaBus ret <> 0.
Proof.
  unfold get_params', get_params. intros H.
  invert_binds H. injection H as <-. cbn [fcaBus].
  match goal with
  | E : in_bus 909 fingerprint 0 = Ok ?b |- _ =>
      exists b; revert E; destruct b; intros Hon0
  end.
  - match goal with
    | E : in_bus 1157 fingerprint 2 = Ok _ |- _ =>
        apply in_bus_Ok in E as (ids & Hids & _)
    end.
    exists (py_in 909 ids).
    match goal with E : Ok 0 = Ok _ |- _ => injection E as <- end.
    split; [exact Hon0|].
    split; [unfold in_bus, fp_bus; rewrite Hids; reflexivity|].
    rewrite andb_false_r. cbn. split; [reflexivity | lia].
  - match goal with
    | E : in_bus 909 fingerprint 2 ≫= _ = Ok _ |- _ =>
        apply bind_Ok_inv in E as (on2 & Hon2 & E); injection E as <-
    end.
    exists on2. split; [exact Hon0|]. split; [exact Hon2|].
    destruct on2; cbn; split; solve [reflexivity | lia].
Qed.

(** C10. The returned [emsAvailable] is true exactly when id 809 is
    seen on bus 0; whether id 608 is there has no effect on it. *)
Theorem get_params_emsAvailable candidate fingerprint params ret :
  get_params' candidate fingerprint params = Ok ret ->
  exists bus0,
    fingerprint !! 0 = Some bus0 /\
    emsAvailable ret = py_in 809 bus0 /\
    forall bus0' ret',
      (forall id, id <> 608 -> bus0' !! id = bus0 !! id) ->
      get_params' candidate (<[0 := bus0']> fingerprint) params = Ok ret' ->
      emsAvailable ret' = emsAvailable ret.
Proof.
  assert (Hems : forall fp r, get_params' candidate fp params = Ok r ->
            in_bus 809 fp 0 = Ok (emsAvailable r)).
  { unfold get_params', get_params. intros fp r H.
    invert_binds H. injection H as <-. cbn [emsAvailable].
    match goal with
    | E : in_bus 809 fp 0 = Ok ?b |- _ => rewrite E; destruct b
    end; reflexivity. }
  intros H. apply Hems in H.
  apply in_bus_Ok in H as (bus0 & Hbus0 & Hret).
  exists bus0. split; [exact Hbus0|]. split; [exact Hret|].
  intros bus0' ret' Hsame H'. apply Hems in H'.
  apply in_bus_Ok in H' as (ids & Hids & Hret').
  rewrite lookup_insert_eq in Hids. injection Hids as <-.
  rewrite Hret, Hret'. unfold py_in. rewrite Hsame; [reflexivity | lia].
Qed.


(** C4, as the code has it. A method value outside 0, 1, 2 does not
    make [get_params] fail: with a readable store, the scaling helpers
    returning and buses 0 and 2 in the fingerprint a record is
    returned, and its [lateralTuning] is the one [get_std_params]
    built, no branch having filled it. *)
Theorem get_params_other_method candidate fingerprint params n :
  read_int py_int params "LateralControlMethod" = Ok n ->
  n <> 0 -> n <> 1 -> n <> 2 ->
  readable decimal_product py_int params = true ->
  scaled' candidate fingerprint params = true ->
  probed fingerprint = true ->
  exists ret,
    get_params' candidate fingerprint params = Ok ret /\
    lateralTuning ret = lateralTuning (get_std_params candidate fingerprint).
Proof.
  intros Hn H0 H1 H2 Hr Hs Hp.
  pose proof (get_params_is_ok candidate fingerprint params) as Hok.
  rewrite Hr, Hs, Hp in Hok.
  destruct (get_params' candidate fingerprint params) as [ret|e] eqn:H;
    [ | discriminate Hok ].
  exists ret. split; [reflexivity|].
  unfold get_params', get_params in H.
  invert_binds H. injection H as <-. cbn [lateralTuning].
  match goal with
  | E : read_int py_int params "LateralControlMethod" = Ok ?m |- _ =>
      rewrite Hn in E; injection E as <-
  end.
  apply select_lateral_other; assumption.
Qed.

End GetParamsFacts.

(** ** update *)

Section UpdateFacts.

Variable Buttons : ButtonCodes.

(** *** The fields of [self.CP] that [update] leaves alone *)

Lemma update_sccBus self c :
  sccBus (self_CP (fst (update Buttons self c))) = sccBus (self_CP self).
Proof.
  unfold update. cbn [fst self_CP].
  destruct (200 <=? _); destruct (sccBus (self_CP self) =? 2); reflexivity.
Qed.

Lemma update_minSteerSpeed self c :
  minSteerSpeed (self_CP (fst (update Buttons self c)))
  = minSteerSpeed (self_CP self).
Proof.
  unfold update. cbn [fst self_CP].
  destruct (200 <=? _); destruct (sccBus (self_CP self) =? 2); reflexivity.
Qed.

(** [enableCruise] is written only under [sccBus == 2]. *)
Lemma update_enableCruise self c :
  enableCruise (self_CP (fst (update Buttons self c)))
  = if sccBus (self_CP self) =? 2 then usestockscc (CC_now c)
    else enableCruise (self_CP self).
Proof.
  unfold update. cbn [fst self_CP].
  destruct (200 <=? _); destruct (sccBus (self_CP self) =? 2); reflexivity.
Qed.

(** *** Events only accumulate *)

Lemma handle_button_app CC ret events b :
  handle_button CC ret events b = events ++ handle_button CC ret [] b.
Proof.
  unfold handle_button, add.
  repeat match goal with
         | |- context [if ?x then _ else _] => destruct x
         end;
    cbn [app]; rewrite <- ?app_assoc, ?app_nil_r; reflexivity.
Qed.

Lemma fold_handle_button_app CC ret stored events :
  fold_left (handle_button CC ret) stored events
  = events ++ fold_left (handle_button CC ret) stored [].
Proof.
  revert events. induction stored as [|b stored IH]; intros events; cbn [fold_left].
  - now rewrite app_nil_r.
  - rewrite IH, (IH (handle_button CC ret [] b)), handle_button_app.
    now rewrite app_assoc.
Qed.

Lemma handle_button_no_mode_change CC ret b :
  List.filter is_mode_change (handle_button CC ret [] b) = [].
Proof.
  unfold handle_button, add.
  repeat match goal with
         | |- context [if ?x then _ else _] => destruct x
         end; reflexivity.
Qed.

Lemma fold_handle_button_no_mode_change CC ret stored :
  List.filter is_mode_change (fold_left (handle_button CC ret) stored []) = [].
Proof.
  induction stored as [|b stored IH]; cbn [fold_left]; [reflexivity|].
  rewrite fold_handle_button_app, List.filter_app, IH.
  now rewrite handle_button_no_mode_change.
Qed.

Lemma add_mode_change_app CC CS events :
  add_mode_change CC CS events = events ++ add_mode_change CC CS [].
Proof.
  unfold add_mode_change, add.
  repeat match goal with
         | |- context [if ?x then _ else _] => destruct x
         end; cbn [app]; rewrite ?app_nil_r; reflexivity.
Qed.

Lemma status_events_app CC CS ret events :
  exists pre,
    status_events CC CS ret events = events ++ pre ++ add_mode_change CC CS []
    /\ List.filter is_mode_change pre = [].
Proof.
  unfold status_events. rewrite add_mode_change_app. unfold add.
  exists ((if parkBrake CS && negb (usestockscc CC)
           then [EventName.parkBrake] else [])
          ++ (if brakeUnavailable CS && negb (usestockscc CC)
              then [EventName.brakeUnavailable] else [])
          ++ (if truthy (lanechange_manual_timer CC) && gt (vEgo ret) 0.3
              then [EventName.laneChangeManual] else [])
          ++ (if truthy (emergency_manual_timer CC)
              then [EventName.emgButtonManual] else [])).
  destruct (parkBrake CS && negb (usestockscc CC));
    destruct (brakeUnavailable CS && negb (usestockscc CC));
    destruct (truthy (lanechange_manual_timer CC) && gt (vEgo ret) 0.3);
    destruct (truthy (emergency_manual_timer CC));
    cbn [app List.filter is_mode_change];
    rewrite <- ?app_assoc, ?app_nil_r; cbn [app]; split; reflexivity.
Qed.

(** The chain of lines 298-307 adds at most one event. *)
Lemma add_mode_change_at_most_one CC CS :
  (length (add_mode_change CC CS []) <= 1)%nat.
Proof.
  unfold add_mode_change, add.
  repeat match goal with
         | |- context [if ?x then _ else _] => destruct x
         end; cbn; lia.
Qed.

Lemma add_mode_change_distance CC CS :
  truthy (mode_change_timer CC) = true ->
  modeSel (cruiseState (out CS)) = 2 ->
  add_mode_change CC CS [] = [EventName.modeChangeDistance].
Proof.
  intros Ht Hs. unfold add_mode_change. rewrite Ht, Hs. reflexivity.
Qed.

(** *** The stored button events *)

Lemma handle_button_incl CC ret events b e :
  In e events -> In e (handle_button CC ret events b).
Proof.
  intros H. rewrite handle_button_app. apply in_or_app. now left.
Qed.

Lemma fold_handle_button_incl CC ret stored events e :
  In e events -> In e (fold_left (handle_button CC ret) stored events).
Proof.
  intros H. rewrite fold_handle_button_app. apply in_or_app. now left.
Qed.

Lemma handle_button_cancel CC ret events b :
  type b = ButtonType.cancel -> pressed b = true ->
  In EventName.buttonCancel (handle_button CC ret events b)
  /\ In EventName.pcmDisable (handle_button CC ret events b).
Proof.
  intros Ht Hp. unfold handle_button, is_type. rewrite Ht, Hp. cbn.
  unfold add. rewrite !List.in_app_iff. cbn. auto.
Qed.

Lemma fold_handle_button_cancel CC ret stored events b :
  In b stored ->
  type b = ButtonType.cancel -> pressed b = true ->
  In EventName.buttonCancel (fold_left (handle_button CC ret) stored events)
  /\ In EventName.pcmDisable (fold_left (handle_button CC ret) stored events).
Proof.
  intros Hin Ht Hp. revert events.
  induction stored as [|b' stored IH]; intros events; [destruct Hin|].
  cbn [fold_left]. destruct Hin as [-> | Hin].
  - destruct (handle_button_cancel CC ret events b Ht Hp) as [H1 H2].
    split; apply fold_handle_button_incl; assumption.
  - apply IH, Hin.
Qed.

(** The latch is never set by a cycle. *)
Lemma update_low_speed_alert_false self c :
  self_low_speed_alert self = false ->
  self_low_speed_alert (fst (update Buttons self c)) = false.
Proof.
  intros H. unfold update. cbn [fst self_low_speed_alert].
  rewrite H. now destruct (_ || _).
Qed.

Lemma run_low_speed_alert_false self cycles :
  self_low_speed_alert self = false ->
  self_low_speed_alert (run Buttons self cycles) = false.
Proof.
  revert self. induction cycles as [|c cycles IH]; intros self H; [exact H|].
  cbn [run fold_left]. apply IH, update_low_speed_alert_false, H.
Qed.

Lemma run_cons self c cycles :
  run Buttons self (c :: cycles) = run Buttons (fst (update Buttons self c)) cycles.
Proof. reflexivity. Qed.

(** With [sccBus] at -1 the flag and the bus survive any run. *)
Lemma run_policy self cycles :
  sccBus (self_CP self) = -1 ->
  enableCruise (self_CP self) = false ->
  sccBus (self_CP (run Buttons self cycles)) = -1
  /\ enableCruise (self_CP (run Buttons self cycles)) = false.
Proof.
  revert self. induction cycles as [|c cycles IH]; intros self Hs He.
  - split; assumption.
  - rewrite run_cons. apply IH.
    + now rewrite update_sccBus.
    + rewrite update_enableCruise, Hs. exact He.
Qed.

(** C1. In every cycle in which the stored button-event list holds a
    pressed cancel event and the [enableCruise] flag is false, the
    returned events include buttonCancel and pcmDisable, whatever the
    speed, brake or standstill state.  The list and the flag are the
    ones the loop of lines 343-344 sees, which are the ones the
    instance holds when the cycle returns. *)
Theorem update_cancel_pressed self c b :
  In b (self_buttonEvents (fst (update Buttons self c))) ->
  type b = ButtonType.cancel -> pressed b = true ->
  enableCruise (self_CP (fst (update Buttons self c))) = false ->
  In EventName.buttonCancel (events (snd (update Buttons self c)))
  /\ In EventName.pcmDisable (events (snd (update Buttons self c))).
Proof.
  unfold update. cbn [fst snd self_buttonEvents self_CP events].
  intros Hin Ht Hp He. unfold handle_buttons. rewrite He. cbn [negb].
  eapply fold_handle_button_cancel; eassumption.
Qed.

(** C7. In every cycle at most one of the five mode-change events is
    added to the events; with the mode-change timer active and the
    mode selector at 2 the one added is modeChangeDistance. *)
Theorem update_mode_change_exclusive self c :
  exists added,
    events (snd (update Buttons self c)) = common_events c ++ added
    /\ (length (List.filter is_mode_change added) <= 1)%nat
    /\ (truthy (mode_change_timer (CC_now c)) = true ->
        modeSel (cruiseState (out (CS_updated c))) = 2 ->
        List.filter is_mode_change added = [EventName.modeChangeDistance]).
Proof.
  unfold update. cbn [snd events]. unfold handle_buttons.
  destruct (status_events_app (CC_now c) (CS_updated c) (CS_ret c)
              (common_events c)) as (pre & -> & Hpre).
  set (mc := add_mode_change (CC_now c) (CS_updated c) []).
  assert (Hmc : List.filter is_mode_change mc = mc).
  { unfold mc, add_mode_change, add.
    repeat match goal with
           | |- context [if ?x then _ else _] => destruct x
           end; reflexivity. }
  match goal with
  | |- context [if ?x then fold_left ?f ?l ?e else _] =>
      exists (pre ++ mc ++ (if x then fold_left f l [] else []));
      destruct x
  end.
  - rewrite fold_handle_button_app, <- !app_assoc.
    split; [reflexivity|].
    rewrite !List.filter_app, Hpre, Hmc, fold_handle_button_no_mode_change.
    cbn [app]. rewrite app_nil_r.
    split; [apply add_mode_change_at_most_one|].
    apply add_mode_change_distance.
  - rewrite app_nil_r, <- ?app_assoc.
    split; [reflexivity|].
    rewrite !List.filter_app, Hpre, Hmc. cbn [app].
    split; [apply add_mode_change_at_most_one|].
    apply add_mode_change_distance.
Qed.

(** C8. The low-speed latch is one-way: a cycle whose speed exceeds
    [minSteerSpeed + 0.84], or whose controller is disabled, clears it,
    and it is still clear after every further sequence of cycles; a
    cycle never sets it. *)
Theorem low_speed_alert_one_way self c rest :
  gt (vEgo (CS_ret c)) (minSteerSpeed (self_CP self) + 0.84)%float = true
  \/ enabled (CC_now c) = false ->
  self_low_speed_alert (fst (update Buttons self c)) = false
  /\ self_low_speed_alert (run Buttons (fst (update Buttons self c)) rest) = false
  /\ (forall s c', self_low_speed_alert (fst (update Buttons s c')) = true ->
                   self_low_speed_alert s = true).
Proof.
  intros H.
  assert (H1 : self_low_speed_alert (fst (update Buttons self c)) = false).
  { unfold update. cbn [fst self_low_speed_alert].
    destruct H as [-> | ->]; [reflexivity|].
    now rewrite orb_true_r. }
  split; [exact H1|]. split; [apply run_low_speed_alert_false, H1|].
  intros s c' Hs. destruct (self_low_speed_alert s) eqn:E; [reflexivity|].
  now rewrite (update_low_speed_alert_false s c' E) in Hs.
Qed.

End UpdateFacts.

(** ** From construction to the cycles *)

Section Lifetime.

Variable car_name : CAR -> string.
Variables STD_CARGO_KG LB_TO_KG : float.
Variable scale_rot_inertia : float -> float -> result float.
Variable scale_tire_stiffness :
  float -> float -> float -> float -> result (float * float).
Variable get_std_params : string -> Fingerprint -> CarParams.
Variable decimal_product : string -> string -> conversion.
Variable py_int : string -> option Z.
Variable Buttons : ButtonCodes.

Let get_params' :=
  get_params car_name STD_CARGO_KG LB_TO_KG scale_rot_inertia
    scale_tire_stiffness get_std_params decimal_product py_int.

(** Lines 260-261 close the construction. *)
Lemma get_params_policy candidate fingerprint params ret :
  get_params' candidate fingerprint params = Ok ret ->
  sccBus ret = -1 /\ enableCruise ret = false.
Proof.
  unfold get_params', get_params. intros H.
  invert_binds H. injection H as <-. split; reflexivity.
Qed.

(** C9. An instance holding the record [get_params] returned has
    [enableCruise] false, and after every sequence of cycles it is
    still false, [sccBus] being -1 throughout; so in every cycle the
    loop over the stored button events runs. *)
Theorem enableCruise_stays_false candidate fingerprint params ret self cycles c :
  get_params' candidate fingerprint params = Ok ret ->
  self_CP self = ret ->
  enableCruise (self_CP (run Buttons self cycles)) = false
  /\ sccBus (self_CP (run Buttons self cycles)) = -1
  /\ events (snd (update Buttons (run Buttons self cycles) c))
     = fold_left (handle_button (CC_now c) (CS_ret c))
         (button_edges Buttons (CS_updated c)
            (self_buttonEvents (run Buttons self cycles)))
         (status_events (CC_now c) (CS_updated c) (CS_ret c)
            (common_events c)).
Proof.
  intros H <-.
  destruct (run_policy Buttons self cycles) as [Hs He].
  { eapply get_params_policy; exact H. }
  { eapply get_params_policy; exact H. }
  split; [exact He|]. split; [exact Hs|].
  set (s := run Buttons self cycles) in *.
  pose proof (update_enableCruise Buttons s c) as Hu.
  rewrite Hs, He in Hu. cbn [Z.eqb] in Hu.
  unfold update in Hu |- *. cbn [fst snd self_CP events] in Hu |- *.
  unfold handle_buttons. rewrite Hu. reflexivity.
Qed.

End Lifetime.

(** ** The properties on concrete inputs *)

Lemma update_cancel_pressed_witness :
  let r := update Demo.Buttons (Demo.instance false)
             (Demo.cycle 4 0 25 true 0 0) in
  enableCruise (self_CP (fst r)) = false
  /\ In EventName.buttonCancel (events (snd r))
  /\ In EventName.pcmDisable (events (snd r)).
Proof.
  split; [vm_compute; reflexivity|].
  apply (update_cancel_pressed Demo.Buttons (Demo.instance false)
           (Demo.cycle 4 0 25 true 0 0)
           {| type := ButtonType.cancel; pressed := true |}).
  - vm_compute. left. reflexivity.
  - reflexivity.
  - reflexivity.
  - vm_compute. reflexivity.
Defined.

Lemma get_params_sccBus_witness :
  Demo.built = Ok (Demo.params_of Demo.built)
  /\ sccBus (Demo.params_of Demo.built) = -1.
Proof.
  split; [vm_compute; reflexivity|].
  apply (get_params_sccBus Demo.car_name Demo.STD_CARGO_KG Demo.LB_TO_KG
           Demo.scale_rot_inertia Demo.scale_tire_stiffness
           Demo.get_std_params Demo.decimal_product Demo.py_int
           "SONATA" Demo.fingerprint (Demo.params "0" "1")).
  vm_compute. reflexivity.
Defined.




Lemma get_params_other_method_witness :
  read_int Demo.py_int (Demo.params "7" "1") "LateralControlMethod" = Ok 7
  /\ exists ret,
       Demo.get_params "SONATA" Demo.fingerprint (Demo.params "7" "1") = Ok ret
       /\ lateralTuning ret = lateralTuning Demo.std_params.
Proof.
  split; [vm_compute; reflexivity|].
  apply (get_params_other_method Demo.car_name Demo.STD_CARGO_KG
           Demo.LB_TO_KG Demo.scale_rot_inertia Demo.scale_tire_stiffness
           Demo.get_std_params Demo.decimal_product Demo.py_int
           "SONATA" Demo.fingerprint (Demo.params "7" "1") 7);
    solve [vm_compute; reflexivity | lia].
Defined.

(** C4 as stated fails: the method key holds 7, and [get_params] returns
    a record. *)
Lemma other_method_is_accepted :
  ~ (read_int Demo.py_int (Demo.params "7" "1") "LateralControlMethod" = Ok 7 ->
     exists e,
       Demo.get_params "SONATA" Demo.fingerprint (Demo.params "7" "1")
       = Raise e).
Proof.
  intros H.
  assert (Hm : read_int Demo.py_int (Demo.params "7" "1")
                 "LateralControlMethod" = Ok 7)
    by (vm_compute; reflexivity).
  destruct (H Hm) as [e He]. vm_compute in He. discriminate He.
Qed.

Lemma get_params_mdps_harness_witness :
  get_bool (Demo.params "0" "1") "MdpsHarness" = true
  /\ minSteerSpeed Demo.std_params = 7.5%float
  /\ mdpsBus (Demo.params_of Demo.built) = 1
  /\ minSteerSpeed (Demo.params_of Demo.built) = 0%float.
Proof.
  split; [vm_compute; reflexivity|]. split; [reflexivity|].
  apply (get_params_mdps_harness Demo.car_name Demo.STD_CARGO_KG
           Demo.LB_TO_KG Demo.scale_rot_inertia Demo.scale_tire_stiffness
           Demo.get_std_params Demo.decimal_product Demo.py_int
           "SONATA" Demo.fingerprint (Demo.params "0" "1"));
    vm_compute; reflexivity.
Defined.

Lemma get_params_fcaBus_witness :
  let r := Demo.params_of
             (Demo.get_params "SONATA" Demo.fingerprint_fca2
                (Demo.params "0" "0")) in
  fcaBus r = 2
  /\ exists on0 on2,
       in_bus 909 Demo.fingerprint_fca2 0 = Ok on0
       /\ in_bus 909 Demo.fingerprint_fca2 2 = Ok on2
       /\ fcaBus r = (if on2 && negb on0 then 2 else -1)
       /\ fcaBus r <> 0.
Proof.
  split; [vm_compute; reflexivity|].
  apply (get_params_fcaBus Demo.car_name Demo.STD_CARGO_KG
           Demo.LB_TO_KG Demo.scale_rot_inertia Demo.scale_tire_stiffness
           Demo.get_std_params Demo.decimal_product Demo.py_int
           "SONATA" Demo.fingerprint_fca2 (Demo.params "0" "0")).
  vm_compute. reflexivity.
Defined.

Lemma update_mode_change_exclusive_witness :
  exists added,
    events (snd (update Demo.Buttons (Demo.instance false)
                   (Demo.cycle 0 0 25 true 5 2)))
    = [EventName.other 7] ++ added
    /\ List.filter is_mode_change added = [EventName.modeChangeDistance].
Proof.
  destruct (update_mode_change_exclusive Demo.Buttons (Demo.instance false)
              (Demo.cycle 0 0 25 true 5 2)) as (added & H1 & _ & H3).
  exists added. split; [exact H1|]. apply H3; reflexivity.
Defined.

Lemma low_speed_alert_one_way_witness :
  self_low_speed_alert (Demo.instance true) = true
  /\ self_low_speed_alert
       (fst (update Demo.Buttons (Demo.instance true)
               (Demo.cycle 0 0 1 true 0 0))) = false
  /\ self_low_speed_alert
       (run Demo.Buttons
          (fst (update Demo.Buttons (Demo.instance true)
                  (Demo.cycle 0 0 1 true 0 0)))
          [Demo.cycle 0 0 0 true 0 0]) = false.
Proof.
  split; [reflexivity|].
  destruct (low_speed_alert_one_way Demo.Buttons (Demo.instance true)
              (Demo.cycle 0 0 1 true 0 0) [Demo.cycle 0 0 0 true 0 0])
    as (H1 & H2 & _).
  - left. vm_compute. reflexivity.
  - split; [exact H1 | exact H2].
Defined.

Lemma enableCruise_stays_false_witness :
  Demo.built = Ok (self_CP (Demo.instance false))
  /\ enableCruise
       (self_CP (run Demo.Buttons (Demo.instance false)
                   [Demo.cycle 1 0 25 true 0 0; Demo.cycle 0 1 25 true 0 0]))
     = false.
Proof.
  split; [vm_compute; reflexivity|].
  apply (enableCruise_stays_false Demo.car_name Demo.STD_CARGO_KG
           Demo.LB_TO_KG Demo.scale_rot_inertia Demo.scale_tire_stiffness
           Demo.get_std_params Demo.decimal_product Demo.py_int Demo.Buttons
           "SONATA" Demo.fingerprint (Demo.params "0" "1")
           (Demo.params_of Demo.built) (Demo.instance false)
           [Demo.cycle 1 0 25 true 0 0; Demo.cycle 0 1 25 true 0 0]
           (Demo.cycle 4 0 25 true 0 0)).
  - vm_compute. reflexivity.
  - reflexivity.
Defined.

Lemma get_params_emsAvailable_witness :
  emsAvailable (Demo.params_of Demo.built) = true
  /\ exists bus0,
       Demo.fingerprint !! 0 = Some bus0
       /\ emsAvailable (Demo.params_of Demo.built) = py_in 809 bus0.
Proof.
  split; [vm_compute; reflexivity|].
  destruct (get_params_emsAvailable Demo.car_name Demo.STD_CARGO_KG
              Demo.LB_TO_KG Demo.scale_rot_inertia Demo.scale_tire_stiffness
              Demo.get_std_params Demo.decimal_product Demo.py_int
              "SONATA" Demo.fingerprint (Demo.params "0" "1")
              (Demo.params_of Demo.built))
    as (bus0 & H0 & H1 & _).
  - vm_compute. reflexivity.
  - exists bus0. split; [exact H0 | exact H1].
Defined.

(** * Further properties of the construction *)

Lemma read_scaled_error decimal_product params key scale e :
  read_scaled decimal_product params key scale = Raise e ->
  e = TypeError key \/ e = InvalidOperation key \/ e = Overflow key.
Proof.
  unfold read_scaled. destruct (get params key) as [s|].
  - destruct (decimal_product s scale); [discriminate| |];
      intros [= <-]; auto.
  - intros [= <-]. now left.
Qed.

Lemma read_int_error py_int params key e :
  read_int py_int params key = Raise e ->
  e = TypeError key \/ e = ValueError key.
Proof.
  unfold read_int. destruct (get params key) as [s|].
  - destruct (py_int s); [discriminate|]. intros [= <-]. now right.
  - intros [= <-]. now left.
Qed.

(** Case on every read of the store that occurs in the goal, in the
    order of the binds; [tac] closes the case of a failed read. *)
Ltac case_reads tac :=
  repeat match goal with
         | |- context [read_scaled ?d ?p ?k ?s ≫= _] =>
             let E := fresh "E" in
             destruct (read_scaled d p k s) eqn:E;
             cbn [mbind result_bind]; [ | solve [tac E] ]
         | |- context [read_int ?d ?p ?k ≫= _] =>
             let E := fresh "E" in
             destruct (read_int d p k) eqn:E;
             cbn [mbind result_bind]; [ | solve [tac E] ]
         end.

Section GetParamsMore.

Variable car_name : CAR -> string.
Variables STD_CARGO_KG LB_TO_KG : float.
Variable scale_rot_inertia : float -> float -> result float.
Variable scale_tire_stiffness :
  float -> float -> float -> float -> result (float * float).
Variable get_std_params : string -> Fingerprint -> CarParams.
Variable decimal_product : string -> string -> conversion.
Variable py_int : string -> option Z.

Let get_params' :=
  get_params car_name STD_CARGO_KG LB_TO_KG scale_rot_inertia
    scale_tire_stiffness get_std_params decimal_product py_int.

Let scaled' :=
  scaled car_name STD_CARGO_KG LB_TO_KG scale_rot_inertia
    scale_tire_stiffness get_std_params decimal_product.

(** X1. [get_params] returns a record exactly when every key of lines
    31-53 is readable, the two scaling helpers return on the mass and
    wheelbase the registry leaves, and buses 0 and 2 are keys of the
    fingerprint.  The method value never decides it, and the identifier
    only through what the helpers make of its mass and wheelbase. *)
Theorem get_params_succeeds_iff candidate fingerprint params :
  (exists ret, get_params' candidate fingerprint params = Ok ret)
  <-> readable decimal_product py_int params = true
      /\ scaled' candidate fingerprint params = true
      /\ probed fingerprint = true.
Proof.
  pose proof (get_params_is_ok car_name STD_CARGO_KG LB_TO_KG
                scale_rot_inertia scale_tire_stiffness get_std_params
                decimal_product py_int candidate fingerprint params) as H.
  fold get_params' scaled' in H.
  rewrite <- !andb_true_iff, andb_assoc, <- H.
  destruct (get_params' candidate fingerprint params) as [ret|e]; cbn.
  - split; [reflexivity | eauto].
  - split; [intros [ret Hret]; discriminate Hret | discriminate].
Qed.

(** X2. With a readable store and the scaling helpers returning, a
    fingerprint without bus 0 makes [get_params] raise KeyError 0
    (line 232), and one with bus 0 but without bus 2 makes it raise
    KeyError 2 (line 242). *)
Theorem get_params_missing_bus candidate fingerprint params :
  readable decimal_product py_int params = true ->
  scaled' candidate fingerprint params = true ->
  (fingerprint !! 0 = None ->
   get_params' candidate fingerprint params = Raise (KeyError 0))
  /\ (is_Some (fingerprint !! 0) -> fingerprint !! 2 = None ->
      get_params' candidate fingerprint params = Raise (KeyError 2)).
Proof.
  intros Hr Hs. unfold readable, scaled_keys in Hr.
  cbn [forallb fst snd] in Hr.
  unfold scaled', scaled in Hs.
  unfold get_params', get_params.
  case_reads ltac:(fun E => cbn [is_ok andb] in Hr; discriminate Hr).
  destruct (vehicle_entry _ _ _ _ _ _) as [m w].
  destruct (scale_rot_inertia m w) as [ri|e]; [|discriminate Hs].
  destruct (scale_tire_stiffness _ _ _ _) as [[tf tr]|e]; [|discriminate Hs].
  cbn [mbind result_bind].
  unfold in_bus, fp_bus. split.
  - intros ->. reflexivity.
  - intros [bus0 ->] ->. reflexivity.
Qed.

(** X3. When some key of the store is absent or malformed,
    [get_params] raises the error of a store key (TypeError for an
    absent key; InvalidOperation, Overflow or ValueError for one the
    conversion rejects), whatever the identifier and the fingerprint
    are: the store is read first. *)
Theorem get_params_store_error_first candidate fingerprint params :
  readable decimal_product py_int params = false ->
  exists key,
    In key (map fst scaled_keys ++ ["LateralControlMethod"])
    /\ (get_params' candidate fingerprint params = Raise (TypeError key)
        \/ get_params' candidate fingerprint params
           = Raise (InvalidOperation key)
        \/ get_params' candidate fingerprint params = Raise (Overflow key)
        \/ get_params' candidate fingerprint params = Raise (ValueError key)).
Proof.
  intros Hr. unfold readable, scaled_keys in Hr. cbn [forallb fst snd] in Hr.
  unfold get_params', get_params.
  case_reads ltac:(fun E =>
    first [ apply read_scaled_error in E | apply read_int_error in E ];
    eexists; split;
    [ | decompose [or] E; subst;
        solve [ left; reflexivity | right; left; reflexivity
              | right; right; left; reflexivity
              | right; right; right; reflexivity ] ];
    cbn; repeat (first [left; reflexivity | right])).
  cbn [is_ok andb] in Hr. discriminate Hr.
Qed.

(** X4. The returned [sasBus] is 1 exactly when the MdpsHarness toggle
    is set and id 688 is not seen on bus 0, and 0 otherwise. *)
Theorem get_params_sasBus candidate fingerprint params ret :
  get_params' candidate fingerprint params = Ok ret ->
  exists on688,
    in_bus 688 fingerprint 0 = Ok on688
    /\ sasBus ret
       = if get_bool params "MdpsHarness" && negb on688 then 1 else 0.
Proof.
  unfold get_params', get_params. intros H.
  invert_binds H. injection H as <-. cbn [sasBus].
  match goal with
  | E : in_bus 688 fingerprint 0 = Ok ?b |- _ =>
      exists b; split; [exact E|]; destruct b
  end; destruct (get_bool params "MdpsHarness"); reflexivity.
Qed.

(** X5. [enableBsm] and [bsmAvailable] of the returned record always
    agree: both test id 1419 (0x58b) on bus 0. *)
Theorem get_params_bsm_flags_agree candidate fingerprint params ret :
  get_params' candidate fingerprint params = Ok ret ->
  enableBsm ret = bsmAvailable ret
  /\ in_bus 1419 fingerprint 0 = Ok (bsmAvailable ret).
Proof.
  unfold get_params', get_params. intros H.
  invert_binds H. injection H as <-. cbn [enableBsm bsmAvailable].
  repeat match goal with
         | E : in_bus 1419 fingerprint 0 = Ok ?b |- _ =>
             revert E
         end.
  intros E1 E2. rewrite E2 in E1. injection E1 as ->.
  rewrite E2. match goal with |- context [if ?b then _ else _] => destruct b end;
    split; reflexivity.
Qed.

(** X6. For a method value 0, 1 or 2 every breakpoint list of the
    returned record (lateral, steer, gas, brake and the five
    longitudinal curves) is strictly increasing and as long as the
    value list it is paired with. *)
Theorem get_params_curves_paired candidate fingerprint params n ret :
  read_int py_int params "LateralControlMethod" = Ok n ->
  0 <= n <= 2 ->
  get_params' candidate fingerprint params = Ok ret ->
  forallb curve_ok (curves ret) = true.
Proof.
  unfold get_params', get_params. intros Hn Hrange H.
  invert_binds H. injection H as <-.
  match goal with
  | E : read_int py_int params "LateralControlMethod" = Ok ?m |- _ =>
      rewrite Hn in E; injection E as <-
  end.
  assert (Hcase : n = 0 \/ n = 1 \/ n = 2) by lia.
  destruct Hcase as [-> | [-> | ->]]; vm_compute; reflexivity.
Qed.

(** X7. A method value 0, 1 or 2 selects the pid, indi or lqr member
    of the union, whichever member [get_std_params] had built. *)
Theorem get_params_variant candidate fingerprint params n ret :
  read_int py_int params "LateralControlMethod" = Ok n ->
  0 <= n <= 2 ->
  get_params' candidate fingerprint params = Ok ret ->
  variant_of (lateralTuning ret) = n.
Proof.
  unfold get_params', get_params. intros Hn Hrange H.
  invert_binds H. injection H as <-.
  match goal with
  | E : read_int py_int params "LateralControlMethod" = Ok ?m |- _ =>
      rewrite Hn in E; injection E as <-
  end.
  assert (Hcase : n = 0 \/ n = 1 \/ n = 2) by lia.
  destruct Hcase as [-> | [-> | ->]]; reflexivity.
Qed.

(** Identify the results of one expression evaluated twice. *)
Ltac merge_results :=
  repeat match goal with
         | E1 : ?t = Ok ?a, E2 : ?t = Ok ?b |- _ =>
             rewrite E1 in E2; injection E2 as <-
         end.

(** X9. The buses and the feature flags of the returned record depend
    on the fingerprint and the store only: two identifiers give the
    same ones. *)
Theorem get_params_topology_ignores_candidate
    candidate1 candidate2 fingerprint params ret1 ret2 :
  get_params' candidate1 fingerprint params = Ok ret1 ->
  get_params' candidate2 fingerprint params = Ok ret2 ->
  topology ret1 = topology ret2.
Proof.
  unfold get_params', get_params. intros H1 H2.
  invert_binds H1. invert_binds H2.
  injection H1 as <-. injection H2 as <-.
  unfold topology.
  cbn [mdpsBus sasBus sccBus fcaBus enableBsm bsmAvailable lfaAvailable
       lvrAvailable evgearAvailable emsAvailable].
  merge_results. reflexivity.
Qed.

End GetParamsMore.

(** * Further properties of the cycle *)

Section UpdateMore.

Variable Buttons : ButtonCodes.

(** ** What a cycle appends *)

Lemma status_events_split CC CS ret events :
  status_events CC CS ret events = events ++ status_events CC CS ret [].
Proof.
  unfold status_events, add.
  repeat match goal with
         | |- context [if ?x then _ else _] => destruct x
         end;
    match goal with
    | |- add_mode_change _ _ ?L = _ ++ add_mode_change _ _ ?R =>
        rewrite (add_mode_change_app CC CS L), (add_mode_change_app CC CS R)
    end;
    cbn [app]; rewrite <- ?app_assoc; reflexivity.
Qed.

Lemma handle_buttons_split CP CC ret stored events :
  handle_buttons CP CC ret stored events
  = events ++ handle_buttons CP CC ret stored [].
Proof.
  unfold handle_buttons. destruct (negb (enableCruise CP)).
  - apply fold_handle_button_app.
  - now rewrite app_nil_r.
Qed.

(** The loop over the stored events, event by event. *)
Lemma fold_handle_button_flat_map CC ret stored :
  fold_left (handle_button CC ret) stored []
  = flat_map (handle_button CC ret []) stored.
Proof.
  induction stored as [|b stored IH]; [reflexivity|].
  cbn [fold_left flat_map]. now rewrite fold_handle_button_app, IH.
Qed.

Lemma handle_button_nil CC ret b :
  handle_button CC ret [] b
  = (if is_type b ButtonType.decelCruise && pressed b
        && (negb (brakePressed ret) || standstill ret)
     then [EventName.buttonEnable; EventName.pcmEnable] else [])
    ++ (if is_type b ButtonType.accelCruise && pressed b
           && (gt (setspeed CC) (clu11_speed CC - 2)%float
               || standstill ret || usestockscc CC)
        then [EventName.buttonEnable; EventName.pcmEnable] else [])
    ++ (if cancelling b
        then [EventName.buttonCancel; EventName.pcmDisable] else []).
Proof.
  unfold handle_button, cancelling, add.
  repeat match goal with
         | |- context [if ?x then _ else _] => destruct x
         end; reflexivity.
Qed.

(** The events of a cycle are the common ones, then those of lines
    290-307, then those of the loop over the stored button events. *)
Lemma update_events self c :
  events (snd (update Buttons self c))
  = common_events c ++ added_events Buttons self c.
Proof.
  unfold added_events, update. cbn [snd events].
  rewrite handle_buttons_split, status_events_split, <- app_assoc.
  now rewrite skipn_app, skipn_all, Nat.sub_diag.
Qed.

Lemma added_events_eq self c :
  added_events Buttons self c
  = status_events (CC_now c) (CS_updated c) (CS_ret c) []
    ++ handle_buttons (self_CP (fst (update Buttons self c))) (CC_now c)
         (CS_ret c) (self_buttonEvents (fst (update Buttons self c))) [].
Proof.
  unfold added_events, update. cbn [fst snd events self_CP self_buttonEvents].
  rewrite handle_buttons_split, status_events_split, <- app_assoc.
  now rewrite skipn_app, skipn_all, Nat.sub_diag.
Qed.

Lemma filter_none {A} (f : A -> bool) (l : list A) :
  (forall x, In x l -> f x = false) -> List.filter f l = [].
Proof.
  induction l as [|a l IH]; intros H; [reflexivity|].
  cbn [List.filter]. rewrite (H a (or_introl eq_refl)).
  apply IH. intros x Hx. apply H. now right.
Qed.

(** Lines 290-307 add none of the four button events. *)
Lemma status_events_no_button CC CS ret e :
  In e (status_events CC CS ret []) -> is_button_name e = false.
Proof.
  unfold status_events, add_mode_change, add.
  repeat match goal with
         | |- context [if ?x then _ else _] => destruct x
         end; cbn [app In]; intros H;
    repeat (destruct H as [<- | H]; [reflexivity|]); destruct H.
Qed.

(** The loop adds nothing but the four button events. *)
Lemma handle_button_only_button CC ret b e :
  In e (handle_button CC ret [] b) -> is_button_name e = true.
Proof.
  rewrite handle_button_nil.
  repeat match goal with
         | |- context [if ?x then _ else _] => destruct x
         end; cbn [app In]; intros H;
    repeat (destruct H as [<- | H]; [reflexivity|]); destruct H.
Qed.

Lemma handle_buttons_only_button CP CC ret stored e :
  In e (handle_buttons CP CC ret stored []) -> is_button_name e = true.
Proof.
  unfold handle_buttons. destruct (negb (enableCruise CP)); [|intros []].
  rewrite fold_handle_button_flat_map, in_flat_map.
  intros (b & _ & H). eapply handle_button_only_button, H.
Qed.

Lemma handle_buttons_no_mode_change CP CC ret stored :
  List.filter is_mode_change (handle_buttons CP CC ret stored []) = [].
Proof.
  unfold handle_buttons. destruct (negb (enableCruise CP)); [|reflexivity].
  apply fold_handle_button_no_mode_change.
Qed.

(** X10. Whatever the timer and the selector, the mode-change events a
    cycle adds are read off one table: with the timer active and the
    selector between 0 and 4 the one event of that selector, and none
    with the timer at zero or the selector outside 0..4. *)
Theorem update_mode_change_table self c :
  let timer := mode_change_timer (CC_now c) in
  let sel := modeSel (cruiseState (out (CS_updated c))) in
  List.filter is_mode_change (added_events Buttons self c)
  = if truthy timer && (0 <=? sel) && (sel <=? 4)
    then firstn 1 (skipn (Z.to_nat sel) mode_change_events)
    else [].
Proof.
  cbv zeta. rewrite added_events_eq, List.filter_app.
  rewrite handle_buttons_no_mode_change, app_nil_r.
  destruct (status_events_app (CC_now c) (CS_updated c) (CS_ret c) [])
    as (pre & -> & Hpre).
  cbn [app]. rewrite List.filter_app, Hpre. cbn [app].
  unfold add_mode_change, add.
  destruct (truthy (mode_change_timer (CC_now c))); [|reflexivity].
  cbn [andb app].
  set (sel := modeSel (cruiseState (out (CS_updated c)))).
  destruct (Z.eqb_spec sel 0) as [->|]; [reflexivity|].
  destruct (Z.eqb_spec sel 1) as [->|]; [reflexivity|].
  destruct (Z.eqb_spec sel 2) as [->|]; [reflexivity|].
  destruct (Z.eqb_spec sel 3) as [->|]; [reflexivity|].
  destruct (Z.eqb_spec sel 4) as [->|]; [reflexivity|].
  destruct (Z.leb_spec 0 sel); [|reflexivity].
  destruct (Z.leb_spec sel 4); [lia|reflexivity].
Qed.

(** X11. The four events of lines 290-297 are among those a cycle
    adds exactly under their own condition: the park-brake and
    brake-unavailable events need the stock cruise flag off, the
    lane-change event needs a speed above 0.3. *)
Theorem update_status_events_iff self c :
  let CC := CC_now c in
  let CS := CS_updated c in
  (In EventName.parkBrake (added_events Buttons self c)
   <-> parkBrake CS && negb (usestockscc CC) = true)
  /\ (In EventName.brakeUnavailable (added_events Buttons self c)
      <-> brakeUnavailable CS && negb (usestockscc CC) = true)
  /\ (In EventName.laneChangeManual (added_events Buttons self c)
      <-> truthy (lanechange_manual_timer CC) && gt (vEgo (CS_ret c)) 0.3
          = true)
  /\ (In EventName.emgButtonManual (added_events Buttons self c)
      <-> truthy (emergency_manual_timer CC) = true).
Proof.
  cbv zeta. rewrite added_events_eq.
  assert (Hb : forall e, is_button_name e = false ->
            (In e (status_events (CC_now c) (CS_updated c) (CS_ret c) []
                   ++ handle_buttons (self_CP (fst (update Buttons self c)))
                        (CC_now c) (CS_ret c)
                        (self_buttonEvents (fst (update Buttons self c))) [])
             <-> In e (status_events (CC_now c) (CS_updated c) (CS_ret c) []))).
  { intros e He. rewrite List.in_app_iff. split; [|now left].
    intros [H|H]; [exact H|].
    apply handle_buttons_only_button in H. congruence. }
  rewrite !Hb by reflexivity.
  unfold status_events, add_mode_change, add.
  repeat split;
    repeat match goal with
           | |- context [if ?x then _ else _] => destruct x
           end; cbn [app In];
    solve [ intuition discriminate ].
Qed.

(** ** The loop over the stored button events *)

Lemma handle_button_enable CC ret b :
  In EventName.buttonEnable (handle_button CC ret [] b)
  <-> enabling CC ret b = true.
Proof.
  rewrite handle_button_nil. unfold enabling.
  repeat match goal with
         | |- context [if ?x then _ else _] => destruct x
         end; cbn [app In orb]; solve [ intuition discriminate ].
Qed.

Lemma handle_button_cancel_iff CC ret b :
  In EventName.buttonCancel (handle_button CC ret [] b)
  <-> cancelling b = true.
Proof.
  rewrite handle_button_nil.
  repeat match goal with
         | |- context [if ?x then _ else _] => destruct x
         end; cbn [app In]; solve [ intuition discriminate ].
Qed.

Lemma in_added_button self c e :
  is_button_name e = true ->
  enableCruise (self_CP (fst (update Buttons self c))) = false ->
  In e (added_events Buttons self c)
  <-> exists b, In b (self_buttonEvents (fst (update Buttons self c)))
                /\ In e (handle_button (CC_now c) (CS_ret c) [] b).
Proof.
  intros He Hf. rewrite added_events_eq, List.in_app_iff.
  unfold handle_buttons. rewrite Hf. cbn [negb].
  rewrite fold_handle_button_flat_map, in_flat_map.
  split; [|now right].
  intros [H|H]; [|exact H].
  apply status_events_no_button in H. congruence.
Qed.

(** X12. With the [enableCruise] flag false, a cycle adds buttonEnable
    exactly when some stored button event is a pressed decelCruise with
    the brake released or the car at standstill, or a pressed
    accelCruise with the set speed above the cluster speed minus 2, the
    car at standstill or the stock cruise flag on; it adds buttonCancel
    exactly when some stored event is a pressed cancel. *)
Theorem update_enable_cancel_iff self c :
  enableCruise (self_CP (fst (update Buttons self c))) = false ->
  (In EventName.buttonEnable (added_events Buttons self c)
   <-> existsb (enabling (CC_now c) (CS_ret c))
         (self_buttonEvents (fst (update Buttons self c))) = true)
  /\ (In EventName.buttonCancel (added_events Buttons self c)
      <-> existsb cancelling
            (self_buttonEvents (fst (update Buttons self c))) = true).
Proof.
  intros Hf. split.
  - rewrite (in_added_button self c EventName.buttonEnable eq_refl Hf),
      existsb_exists.
    split; intros (b & Hb & H); exists b; split; try exact Hb;
      now apply handle_button_enable.
  - rewrite (in_added_button self c EventName.buttonCancel eq_refl Hf),
      existsb_exists.
    split; intros (b & Hb & H); exists b; split; try exact Hb;
      now apply (handle_button_cancel_iff (CC_now c) (CS_ret c)).
Qed.

Lemma occurrences_app e l k :
  occurrences e (l ++ k) = (occurrences e l + occurrences e k)%nat.
Proof. unfold occurrences. now rewrite List.filter_app, length_app. Qed.

Lemma status_events_occurrences CC CS ret e :
  is_button_name e = true ->
  occurrences e (status_events CC CS ret []) = 0%nat.
Proof.
  intros He. unfold occurrences. rewrite filter_none; [reflexivity|].
  intros x Hx. apply status_events_no_button in Hx.
  destruct e, x; try reflexivity; discriminate.
Qed.

Lemma fold_handle_button_paired CC ret stored :
  occurrences EventName.buttonEnable
    (fold_left (handle_button CC ret) stored [])
  = occurrences EventName.pcmEnable
      (fold_left (handle_button CC ret) stored [])
  /\ occurrences EventName.buttonCancel
       (fold_left (handle_button CC ret) stored [])
     = occurrences EventName.pcmDisable
         (fold_left (handle_button CC ret) stored []).
Proof.
  rewrite fold_handle_button_flat_map.
  induction stored as [|b stored [IH1 IH2]]; [split; reflexivity|].
  cbn [flat_map]. rewrite !occurrences_app, IH1, IH2.
  rewrite handle_button_nil.
  repeat match goal with
         | |- context [if ?x then _ else _] => destruct x
         end; split; reflexivity.
Qed.

(** X13. Among the events a cycle adds, buttonEnable occurs as often as
    pcmEnable and buttonCancel as often as pcmDisable. *)
Theorem update_paired_events self c :
  occurrences EventName.buttonEnable (added_events Buttons self c)
  = occurrences EventName.pcmEnable (added_events Buttons self c)
  /\ occurrences EventName.buttonCancel (added_events Buttons self c)
     = occurrences EventName.pcmDisable (added_events Buttons self c).
Proof.
  rewrite added_events_eq, !occurrences_app.
  rewrite !status_events_occurrences by reflexivity.
  unfold handle_buttons. destruct (negb _); [|split; reflexivity].
  cbn [Nat.add]. apply fold_handle_button_paired.
Qed.

(** X14. With the [enableCruise] flag true a cycle adds none of
    buttonEnable, pcmEnable, buttonCancel and pcmDisable, whatever the
    stored button events are. *)
Theorem update_stock_cruise_silences self c :
  enableCruise (self_CP (fst (update Buttons self c))) = true ->
  List.filter is_button_name (added_events Buttons self c) = [].
Proof.
  intros Hf. rewrite added_events_eq. unfold handle_buttons.
  rewrite Hf. cbn [negb]. rewrite app_nil_r.
  apply filter_none. intros x. apply status_events_no_button.
Qed.

(** ** The stored list across cycles *)

(** Lines 315-340 on the stored list. *)
Lemma update_stored self c :
  let CS := CS_updated c in
  let cruise_edge := negb (cruise_buttons CS =? prev_cruise_buttons CS) in
  let main_edge :=
    negb (cruise_main_button CS =? prev_cruise_main_button CS) in
  buttonEvents (snd (update Buttons self c))
  = self_buttonEvents (fst (update Buttons self c))
  /\ self_buttonEvents (fst (update Buttons self c))
     = if cruise_edge || main_edge
       then (if cruise_edge
             then [ {| type := button_type Buttons (cruise_buttons CS);
                       pressed := negb (cruise_buttons CS =? 0) |} ]
             else [])
            ++ (if main_edge
                then [ {| type := ButtonType.altButton3;
                          pressed := truthy (cruise_main_button CS) |} ]
                else [])
       else self_buttonEvents self.
Proof.
  cbv zeta. unfold update, button_edges.
  cbn [fst snd buttonEvents self_buttonEvents].
  split; [reflexivity|].
  destruct (negb (cruise_buttons _ =? _));
    destruct (negb (cruise_main_button _ =? _)); reflexivity.
Qed.

(** X15. The message carries the list the instance stores.  A cycle
    with no edge keeps the stored list; a cycle with an edge replaces it
    by that cycle's events alone, the cruise-button event first and the
    main-button event after it. *)
Theorem update_button_events self c :
  let CS := CS_updated c in
  let cruise_edge := negb (cruise_buttons CS =? prev_cruise_buttons CS) in
  let main_edge :=
    negb (cruise_main_button CS =? prev_cruise_main_button CS) in
  buttonEvents (snd (update Buttons self c))
  = self_buttonEvents (fst (update Buttons self c))
  /\ self_buttonEvents (fst (update Buttons self c))
     = if cruise_edge || main_edge
       then (if cruise_edge
             then [ {| type := button_type Buttons (cruise_buttons CS);
                       pressed := negb (cruise_buttons CS =? 0) |} ]
             else [])
            ++ (if main_edge
                then [ {| type := ButtonType.altButton3;
                          pressed := truthy (cruise_main_button CS) |} ]
                else [])
       else self_buttonEvents self.
Proof. exact (update_stored self c). Qed.

Lemma update_quiet self c :
  quiet c = true ->
  self_buttonEvents (fst (update Buttons self c)) = self_buttonEvents self.
Proof.
  unfold quiet. intros [H1 H2]%andb_true_iff.
  unfold update, button_edges. cbn [fst self_buttonEvents].
  now rewrite H1, H2.
Qed.

Lemma run_quiet self cycles :
  forallb quiet cycles = true ->
  self_buttonEvents (run Buttons self cycles) = self_buttonEvents self.
Proof.
  revert self. induction cycles as [|c cycles IH]; intros self H;
    [reflexivity|].
  cbn [forallb] in H. apply andb_true_iff in H as [Hc H].
  rewrite run_cons, IH by exact H. now apply update_quiet.
Qed.

(** Away from [sccBus == 2] no run writes the flag. *)
Lemma run_flag_kept self cycles :
  sccBus (self_CP self) <> 2 ->
  sccBus (self_CP (run Buttons self cycles)) = sccBus (self_CP self)
  /\ enableCruise (self_CP (run Buttons self cycles))
     = enableCruise (self_CP self).
Proof.
  revert self. induction cycles as [|c cycles IH]; intros self Hs;
    [split; reflexivity|].
  rewrite run_cons.
  destruct (IH (fst (update Buttons self c))) as [H1 H2].
  { now rewrite update_sccBus. }
  rewrite H1, H2, update_sccBus, update_enableCruise.
  apply Z.eqb_neq in Hs. now rewrite Hs.
Qed.

Lemma button_type_cancel :
  CANCEL Buttons <> RES_ACCEL Buttons ->
  CANCEL Buttons <> SET_DECEL Buttons ->
  CANCEL Buttons <> GAP_DIST Buttons ->
  button_type Buttons (CANCEL Buttons) = ButtonType.cancel.
Proof.
  intros H1 H2 H3. unfold button_type.
  apply Z.eqb_neq in H1, H2, H3. now rewrite H1, H2, H3, Z.eqb_refl.
Qed.

(** X16. A cancel press is emitted again on every later cycle until
    another edge replaces it: after a cycle whose cruise-button code
    changes to CANCEL, each following cycle without an edge still adds
    buttonCancel and pcmDisable (the flag being false and [sccBus] not
    2, as [get_params] leaves them). *)
Theorem cancel_refires self c1 quiets c2 :
  CANCEL Buttons <> 0 ->
  CANCEL Buttons <> RES_ACCEL Buttons ->
  CANCEL Buttons <> SET_DECEL Buttons ->
  CANCEL Buttons <> GAP_DIST Buttons ->
  sccBus (self_CP self) <> 2 ->
  enableCruise (self_CP self) = false ->
  cruise_buttons (CS_updated c1) = CANCEL Buttons ->
  prev_cruise_buttons (CS_updated c1) <> CANCEL Buttons ->
  forallb quiet (quiets ++ [c2]) = true ->
  let later := run Buttons (fst (update Buttons self c1)) quiets in
  In EventName.buttonCancel (added_events Buttons later c2)
  /\ In EventName.pcmDisable (added_events Buttons later c2).
Proof.
  intros H0 Ha Hd Hg Hs He Hc Hp Hq. cbv zeta.
  rewrite forallb_app in Hq. apply andb_true_iff in Hq as [Hq Hq2].
  cbn [forallb] in Hq2. rewrite andb_true_r in Hq2.
  set (s1 := fst (update Buttons self c1)).
  set (later := run Buttons s1 quiets).
  assert (Hs1 : sccBus (self_CP s1) <> 2)
    by (unfold s1; now rewrite update_sccBus).
  destruct (run_flag_kept s1 quiets Hs1) as [Hbus Hflag]. fold later in Hbus, Hflag.
  assert (Hflag2 : enableCruise (self_CP (fst (update Buttons later c2))) = false).
  { rewrite update_enableCruise, Hbus.
    apply Z.eqb_neq in Hs1. rewrite Hs1, Hflag. unfold s1.
    rewrite update_enableCruise. apply Z.eqb_neq in Hs. now rewrite Hs. }
  assert (Hin : In {| type := ButtonType.cancel; pressed := true |}
                  (self_buttonEvents (fst (update Buttons later c2)))).
  { rewrite update_quiet by exact Hq2. unfold later.
    rewrite run_quiet by exact Hq. unfold s1.
    destruct (update_stored self c1) as [_ ->].
    rewrite Hc. apply Z.eqb_neq in H0. rewrite H0.
    assert (Hp' : CANCEL Buttons <> prev_cruise_buttons (CS_updated c1))
      by congruence.
    apply Z.eqb_neq in Hp'. rewrite Hp'. cbn [negb orb].
    rewrite button_type_cancel by assumption. now left. }
  assert (Hb : forall e, is_button_name e = true ->
            In e (handle_button (CC_now c2) (CS_ret c2) []
                    {| type := ButtonType.cancel; pressed := true |}) ->
            In e (added_events Buttons later c2)).
  { intros e He' H. apply (in_added_button later c2 e He' Hflag2). eauto. }
  destruct (handle_button_cancel (CC_now c2) (CS_ret c2) []
              {| type := ButtonType.cancel; pressed := true |}
              eq_refl eq_refl) as [Hbc Hpd].
  split; apply Hb; first [reflexivity | assumption].
Qed.

(** X17. On a freshly constructed instance a cycle without an edge
    carries no button event and adds none of buttonEnable, pcmEnable,
    buttonCancel and pcmDisable. *)
Theorem init_first_cycle base c :
  quiet c = true ->
  buttonEvents (snd (update Buttons (init base) c)) = []
  /\ List.filter is_button_name (added_events Buttons (init base) c) = [].
Proof.
  intros Hq. destruct (update_stored (init base) c) as [-> _].
  pose proof (update_quiet (init base) c Hq) as Hst.
  cbn [init self_buttonEvents] in Hst. split; [exact Hst|].
  rewrite added_events_eq, Hst. unfold handle_buttons.
  destruct (negb _); cbn [fold_left]; rewrite app_nil_r;
    apply filter_none; intros x; apply status_events_no_button.
Qed.

(** X18. A press of the resume/accelerate button at standstill enables:
    when the cruise-button code changes to a non-zero RES_ACCEL, the car
    is at standstill and the flag is false, the message carries a
    pressed accelCruise event and the cycle adds buttonEnable and
    pcmEnable. *)
Theorem accel_press_at_standstill_enables self c :
  RES_ACCEL Buttons <> 0 ->
  cruise_buttons (CS_updated c) = RES_ACCEL Buttons ->
  prev_cruise_buttons (CS_updated c) <> RES_ACCEL Buttons ->
  standstill (CS_ret c) = true ->
  enableCruise (self_CP (fst (update Buttons self c))) = false ->
  In {| type := ButtonType.accelCruise; pressed := true |}
    (buttonEvents (snd (update Buttons self c)))
  /\ In EventName.buttonEnable (added_events Buttons self c)
  /\ In EventName.pcmEnable (added_events Buttons self c).
Proof.
  intros H0 Hc Hp Hst Hf.
  set (b := {| type := ButtonType.accelCruise; pressed := true |}).
  assert (Hin : In b (self_buttonEvents (fst (update Buttons self c)))).
  { destruct (update_stored self c) as [_ ->].
    rewrite Hc. apply Z.eqb_neq in H0. rewrite H0.
    assert (Hp' : RES_ACCEL Buttons <> prev_cruise_buttons (CS_updated c))
      by congruence.
    apply Z.eqb_neq in Hp'. rewrite Hp'. cbn [negb orb].
    unfold button_type. rewrite Z.eqb_refl. now left. }
  split; [destruct (update_stored self c) as [-> _]; exact Hin|].
  assert (Hhb : handle_button (CC_now c) (CS_ret c) [] b
                = [EventName.buttonEnable; EventName.pcmEnable]).
  { rewrite handle_button_nil. unfold cancelling, is_type, b.
    cbn [type pressed andb]. rewrite Hst, orb_true_r. reflexivity. }
  split.
  - apply (in_added_button self c EventName.buttonEnable eq_refl Hf).
    exists b. split; [exact Hin|]. rewrite Hhb. cbn. auto.
  - apply (in_added_button self c EventName.pcmEnable eq_refl Hf).
    exists b. split; [exact Hin|]. rewrite Hhb. cbn. auto.
Qed.

End UpdateMore.

(** * The two methods in sequence *)

Section Calls.

Variables Actuators VisualAlert SubMaster CanSends : Type.
Variable CC_update :
  CarController -> bool -> CarStateObj -> Z -> Actuators -> bool ->
  VisualAlert -> bool -> bool -> bool -> bool ->
  float -> bool -> float -> float -> float -> SubMaster ->
  CarController * CanSends.
Variable Buttons : ButtonCodes.

Let apply' := apply Actuators VisualAlert SubMaster CanSends CC_update.
Let exec' := exec Actuators VisualAlert SubMaster CanSends CC_update Buttons.

Lemma with_runtime_id cp :
  with_runtime cp (enableCruise cp) (standStill cp) (vCruisekph cp) = cp.
Proof. now destruct cp. Qed.

Lemma with_runtime_twice cp a b v a' b' v' :
  with_runtime (with_runtime cp a b v) a' b' v' = with_runtime cp a' b' v'.
Proof. reflexivity. Qed.

Lemma update_with_runtime self c :
  exists ec ss v,
    self_CP (fst (update Buttons self c))
    = with_runtime (self_CP self) ec ss v.
Proof.
  unfold update. cbn [fst self_CP].
  unfold set_vCruisekph, set_standStill, set_enableCruise.
  destruct (200 <=? _); destruct (sccBus (self_CP self) =? 2);
    eexists _, _, _; cbn; reflexivity.
Qed.

Lemma apply_fields self CC c sm :
  let s := fst (fst (apply' self CC c sm)) in
  self_CP s = self_CP self /\ self_frame s = self_frame self + 1.
Proof.
  cbv zeta. unfold apply', apply.
  destruct (CC_update _ _ _ _ _ _ _ _ _ _ _ _ _ _ _ _ _) as [cc sends].
  split; reflexivity.
Qed.

Lemma update_frame self c :
  self_frame (fst (update Buttons self c)) = self_frame self.
Proof. reflexivity. Qed.

Lemma exec_update self c calls :
  exec' self (call_update _ _ _ c :: calls)
  = exec' (fst (update Buttons self c)) calls.
Proof. reflexivity. Qed.

Lemma exec_apply self CC c sm calls :
  exec' self (call_apply _ _ _ CC c sm :: calls)
  = exec' (fst (fst (apply' self CC c sm))) calls.
Proof. reflexivity. Qed.

(** X19. No sequence of [update] and [apply] calls changes the
    parameters beyond the three fields [update] owns (enableCruise,
    standStill, vCruisekph): the buses, the feature flags and
    [minSteerSpeed] stay as constructed. *)
Theorem exec_keeps_configuration self calls :
  (exists ec ss v,
     self_CP (exec' self calls) = with_runtime (self_CP self) ec ss v)
  /\ topology (self_CP (exec' self calls)) = topology (self_CP self)
  /\ minSteerSpeed (self_CP (exec' self calls)) = minSteerSpeed (self_CP self).
Proof.
  assert (H : exists ec ss v,
             self_CP (exec' self calls) = with_runtime (self_CP self) ec ss v).
  { revert self. induction calls as [|k calls IH]; intros self.
    - exists (enableCruise (self_CP self)), (standStill (self_CP self)),
        (vCruisekph (self_CP self)).
      symmetry. apply with_runtime_id.
    - destruct k as [c | CC c sm].
      + rewrite exec_update.
        destruct (IH (fst (update Buttons self c))) as (ec & ss & v & ->).
        destruct (update_with_runtime self c) as (ec' & ss' & v' & ->).
        eexists _, _, _. apply with_runtime_twice.
      + rewrite exec_apply.
        destruct (IH (fst (fst (apply' self CC c sm))))
          as (ec & ss & v & ->).
        destruct (apply_fields self CC c sm) as [-> _].
        eexists _, _, _. reflexivity. }
  split; [exact H|].
  destruct H as (ec & ss & v & ->). split; reflexivity.
Qed.

(** X20. [update] leaves the frame counter alone and [apply] advances
    it by one: after any sequence of calls the counter has grown by the
    number of [apply] calls. *)
Theorem exec_frame self calls :
  self_frame (exec' self calls)
  = self_frame self
    + applies Actuators VisualAlert SubMaster calls.
Proof.
  revert self. induction calls as [|k calls IH]; intros self.
  - unfold applies. cbn. lia.
  - destruct k as [c | CC c sm].
    + rewrite exec_update, IH, update_frame. reflexivity.
    + rewrite exec_apply, IH.
      destruct (apply_fields self CC c sm) as [_ ->].
      unfold applies. cbn [List.filter length]. lia.
Qed.

End Calls.

(** ** The further properties on concrete inputs *)

Lemma get_params_missing_bus_witness :
  readable Demo.decimal_product Demo.py_int (Demo.params "0" "1") = true
  /\ Demo.get_params "SONATA" Demo.fingerprint_no0 (Demo.params "0" "1")
     = Raise (KeyError 0)
  /\ Demo.get_params "SONATA" Demo.fingerprint_no2 (Demo.params "0" "1")
     = Raise (KeyError 2).
Proof.
  assert (Hr : readable Demo.decimal_product Demo.py_int (Demo.params "0" "1")
               = true) by (vm_compute; reflexivity).
  split; [exact Hr|]. split.
  - apply (get_params_missing_bus Demo.car_name Demo.STD_CARGO_KG
             Demo.LB_TO_KG Demo.scale_rot_inertia Demo.scale_tire_stiffness
             Demo.get_std_params Demo.decimal_product Demo.py_int
             "SONATA" Demo.fingerprint_no0 (Demo.params "0" "1") Hr).
    + vm_compute. reflexivity.
    + vm_compute. reflexivity.
  - apply (get_params_missing_bus Demo.car_name Demo.STD_CARGO_KG
             Demo.LB_TO_KG Demo.scale_rot_inertia Demo.scale_tire_stiffness
             Demo.get_std_params Demo.decimal_product Demo.py_int
             "SONATA" Demo.fingerprint_no2 (Demo.params "0" "1") Hr).
    + vm_compute. reflexivity.
    + vm_compute. eexists. reflexivity.
    + vm_compute. reflexivity.
Defined.

Lemma get_params_store_error_first_witness :
  readable Demo.decimal_product Demo.py_int (Demo.params_without "PidKd")
  = false
  /\ Demo.get_params "SONATA" Demo.fingerprint_no0 (Demo.params_without "PidKd")
     = Raise (TypeError "PidKd")
  /\ exists key,
       In key (map fst scaled_keys ++ ["LateralControlMethod"])
       /\ (Demo.get_params "SONATA" Demo.fingerprint_no0
             (Demo.params_without "PidKd") = Raise (TypeError key)
           \/ Demo.get_params "SONATA" Demo.fingerprint_no0
                (Demo.params_without "PidKd") = Raise (InvalidOperation key)
           \/ Demo.get_params "SONATA" Demo.fingerprint_no0
                (Demo.params_without "PidKd") = Raise (Overflow key)
           \/ Demo.get_params "SONATA" Demo.fingerprint_no0
                (Demo.params_without "PidKd") = Raise (ValueError key)).
Proof.
  split; [vm_compute; reflexivity|]. split; [vm_compute; reflexivity|].
  apply (get_params_store_error_first Demo.car_name Demo.STD_CARGO_KG
           Demo.LB_TO_KG Demo.scale_rot_inertia Demo.scale_tire_stiffness
           Demo.get_std_params Demo.decimal_product Demo.py_int
           "SONATA" Demo.fingerprint_no0 (Demo.params_without "PidKd")).
  vm_compute. reflexivity.
Defined.

Lemma get_params_sasBus_witness :
  sasBus (Demo.params_of Demo.built) = 1
  /\ exists on688,
       in_bus 688 Demo.fingerprint 0 = Ok on688
       /\ sasBus (Demo.params_of Demo.built)
          = if get_bool (Demo.params "0" "1") "MdpsHarness" && negb on688
            then 1 else 0.
Proof.
  split; [vm_compute; reflexivity|].
  apply (get_params_sasBus Demo.car_name Demo.STD_CARGO_KG
           Demo.LB_TO_KG Demo.scale_rot_inertia Demo.scale_tire_stiffness
           Demo.get_std_params Demo.decimal_product Demo.py_int
           "SONATA" Demo.fingerprint (Demo.params "0" "1")).
  vm_compute. reflexivity.
Defined.

Lemma get_params_bsm_flags_agree_witness :
  enableBsm (Demo.params_of Demo.built) = bsmAvailable (Demo.params_of Demo.built)
  /\ in_bus 1419 Demo.fingerprint 0 = Ok (bsmAvailable (Demo.params_of Demo.built)).
Proof.
  apply (get_params_bsm_flags_agree Demo.car_name Demo.STD_CARGO_KG
           Demo.LB_TO_KG Demo.scale_rot_inertia Demo.scale_tire_stiffness
           Demo.get_std_params Demo.decimal_product Demo.py_int
           "SONATA" Demo.fingerprint (Demo.params "0" "1")).
  vm_compute. reflexivity.
Defined.

Lemma get_params_curves_paired_witness :
  forallb curve_ok
    (curves (Demo.params_of
               (Demo.get_params "K7" Demo.fingerprint (Demo.params "1" "0"))))
  = true.
Proof.
  apply (get_params_curves_paired Demo.car_name Demo.STD_CARGO_KG
           Demo.LB_TO_KG Demo.scale_rot_inertia Demo.scale_tire_stiffness
           Demo.get_std_params Demo.decimal_product Demo.py_int
           "K7" Demo.fingerprint (Demo.params "1" "0") 1).
  - vm_compute. reflexivity.
  - lia.
  - vm_compute. reflexivity.
Defined.

Lemma get_params_variant_witness :
  variant_of
    (lateralTuning
       (Demo.params_of
          (Demo.get_params "K7" Demo.fingerprint (Demo.params "2" "0"))))
  = 2.
Proof.
  apply (get_params_variant Demo.car_name Demo.STD_CARGO_KG
           Demo.LB_TO_KG Demo.scale_rot_inertia Demo.scale_tire_stiffness
           Demo.get_std_params Demo.decimal_product Demo.py_int
           "K7" Demo.fingerprint (Demo.params "2" "0") 2).
  - vm_compute. reflexivity.
  - lia.
  - vm_compute. reflexivity.
Defined.

Lemma get_params_topology_ignores_candidate_witness :
  topology (Demo.params_of
              (Demo.get_params "K7" Demo.fingerprint (Demo.params "2" "0")))
  = topology (Demo.params_of
                (Demo.get_params "SONATA" Demo.fingerprint
                   (Demo.params "2" "0"))).
Proof.
  apply (get_params_topology_ignores_candidate Demo.car_name Demo.STD_CARGO_KG
           Demo.LB_TO_KG Demo.scale_rot_inertia Demo.scale_tire_stiffness
           Demo.get_std_params Demo.decimal_product Demo.py_int
           "K7" "SONATA" Demo.fingerprint (Demo.params "2" "0"));
    vm_compute; reflexivity.
Defined.

Lemma update_enable_cancel_iff_witness :
  let self' := fst (update Demo.Buttons (Demo.instance false)
                      (Demo.cycle_at 2 0 true false)) in
  enableCruise (self_CP self') = false
  /\ ~ In EventName.buttonEnable
         (added_events Demo.Buttons (Demo.instance false)
            (Demo.cycle_at 2 0 true false)).
Proof.
  assert (Hf : enableCruise
                 (self_CP (fst (update Demo.Buttons (Demo.instance false)
                                  (Demo.cycle_at 2 0 true false)))) = false)
    by (vm_compute; reflexivity).
  split; [exact Hf|].
  destruct (update_enable_cancel_iff Demo.Buttons (Demo.instance false)
              (Demo.cycle_at 2 0 true false) Hf) as [[H _] _].
  intros Hin. apply H in Hin. vm_compute in Hin. discriminate Hin.
Defined.

Lemma update_stock_cruise_silences_witness :
  self_buttonEvents Demo.stock_instance
  = [ {| type := ButtonType.cancel; pressed := true |} ]
  /\ List.filter is_button_name
       (added_events Demo.Buttons Demo.stock_instance
          (Demo.cycle_at 0 0 false false)) = [].
Proof.
  split; [reflexivity|].
  apply (update_stock_cruise_silences Demo.Buttons Demo.stock_instance
           (Demo.cycle_at 0 0 false false)).
  vm_compute. reflexivity.
Defined.

Lemma cancel_refires_witness :
  let later := run Demo.Buttons
                 (fst (update Demo.Buttons (Demo.instance false)
                         (Demo.cycle_at 4 0 true false)))
                 [Demo.cycle_at 4 4 true false] in
  In EventName.buttonCancel
    (added_events Demo.Buttons later (Demo.cycle_at 4 4 false false))
  /\ In EventName.pcmDisable
       (added_events Demo.Buttons later (Demo.cycle_at 4 4 false false)).
Proof.
  apply (cancel_refires Demo.Buttons (Demo.instance false)
           (Demo.cycle_at 4 0 true false) [Demo.cycle_at 4 4 true false]
           (Demo.cycle_at 4 4 false false));
    solve [ vm_compute; reflexivity | vm_compute; discriminate ].
Defined.

Lemma init_first_cycle_witness :
  buttonEvents
    (snd (update Demo.Buttons (init Demo.stock_instance)
            (Demo.cycle_at 0 0 false true))) = []
  /\ List.filter is_button_name
       (added_events Demo.Buttons (init Demo.stock_instance)
          (Demo.cycle_at 0 0 false true)) = [].
Proof.
  apply (init_first_cycle Demo.Buttons Demo.stock_instance
           (Demo.cycle_at 0 0 false true)).
  reflexivity.
Defined.

Lemma accel_press_at_standstill_enables_witness :
  In {| type := ButtonType.accelCruise; pressed := true |}
    (buttonEvents (snd (update Demo.Buttons (Demo.instance false)
                          (Demo.cycle_at 1 0 true true))))
  /\ In EventName.buttonEnable
       (added_events Demo.Buttons (Demo.instance false)
          (Demo.cycle_at 1 0 true true))
  /\ In EventName.pcmEnable
       (added_events Demo.Buttons (Demo.instance false)
          (Demo.cycle_at 1 0 true true)).
Proof.
  apply (accel_press_at_standstill_enables Demo.Buttons (Demo.instance false)
           (Demo.cycle_at 1 0 true true));
    solve [ vm_compute; reflexivity | vm_compute; discriminate ].
Defined.
